(** * Casette USB monitor: a shallow embedding of [scripts/usb_monitor.py]

    The service reacts to udev hotplug events: it mounts an inserted USB
    partition under [MOUNT_BASE], looks for [index.html] in its root and
    opens it in a Chromium kiosk; on removal it unmounts again.

    The program talks to the outside world through a handful of library
    calls ([os.makedirs], [subprocess.run], [subprocess.Popen], ...).  The
    embedding keeps the monitor's own data ([mounted_devices]), the log and
    the sequence of library calls it has made in an explicit state; what a
    library call answers (a value or an exception) is read from an
    environment, which may depend on everything that was called before. *)

From Stdlib Require Import ZArith Lia Ascii.
From stdpp Require Import base gmap strings list.

Local Open Scope string_scope.
Local Open Scope list_scope.
Local Open Scope Z_scope.

(** ** Python values and helpers *)

Module Py.

(** Exceptions.  Library calls fail with subclasses of [Exception]; the
    code distinguishes [OSError] from the rest.  [KeyboardInterrupt] and
    [SystemExit] are not [Exception]s: the first is only raised in the
    main thread's loop, the second by [sys.exit]. *)
Inductive failure : Type :=
| OSError (msg : string)
| OtherError (msg : string).

Inductive exn : Type :=
| Failure (f : failure)
| KeyboardInterrupt
| SystemExit (code : Z).

(** [str(e)] *)
Definition str_of_failure (f : failure) : string :=
  match f with
  | OSError msg => msg
  | OtherError msg => msg
  end.

Definition is_OSError (f : failure) : bool :=
  match f with
  | OSError _ => true
  | OtherError _ => false
  end.

(** [s.split(sep)] for a one-character separator: never empty. *)
Fixpoint split (sep : ascii) (s : string) : list string :=
  match s with
  | EmptyString => [EmptyString]
  | String a s' =>
      if Ascii.eqb a sep then EmptyString :: split sep s'
      else match split sep s' with
           | [] => [String a EmptyString]
           | h :: t => String a h :: t
           end
  end.

(** [l[-1]] on a list of strings (the empty string stands for the
    IndexError that [split] can never cause). *)
Definition last_item (l : list string) : string := List.last l EmptyString.

(** [s.startswith("/")] and [s.endswith("/")] *)
Definition startswith_sep (s : string) : bool :=
  match s with
  | String a _ => Ascii.eqb a "/"%char
  | EmptyString => false
  end.

Fixpoint endswith_sep (s : string) : bool :=
  match s with
  | EmptyString => false
  | String a EmptyString => Ascii.eqb a "/"%char
  | String _ s' => endswith_sep s'
  end.

(** [os.path.join(a, b)] of [posixpath], for two arguments. *)
Definition os_path_join (a b : string) : string :=
  if startswith_sep b then b
  else if (String.eqb a "" || endswith_sep a)%bool then a +:+ b
  else a +:+ "/" +:+ b.

(** Truthiness of a string ([if s:]). *)
Definition truthy (s : string) : bool := negb (String.eqb s "").

(** [x or y] on strings. *)
Definition str_or (x y : string) : string := if truthy x then x else y.

End Py.

(** ** Configuration *)

Definition MOUNT_BASE : string := "/mnt/casette".
Definition DISPLAY : string := ":0".

(** ** udev devices

    A device as pyudev presents it: the action of the event, the property
    dictionary, and the two attributes the classifier reads.  Reading
    [subsystem] or [parent] goes to libudev and may raise.  A pyudev
    device is a mapping of its properties, so its truth value is that of
    a mapping: a device without properties is false. *)

Inductive Device : Type :=
| mkDevice (action : option string)
           (properties : gmap string string)
           (subsystem : Py.failure + string)
           (parent : parent_link)
with parent_link : Type :=
| ParentNone
| ParentRaises (f : Py.failure)
| ParentDevice (d : Device).

Definition action (d : Device) : option string :=
  match d with mkDevice a _ _ _ => a end.
Definition properties (d : Device) : gmap string string :=
  match d with mkDevice _ p _ _ => p end.
Definition subsystem (d : Device) : Py.failure + string :=
  match d with mkDevice _ _ s _ => s end.
Definition parent (d : Device) : parent_link :=
  match d with mkDevice _ _ _ p => p end.

(** [bool(device)]: the device has at least one property. *)
Definition device_truthy (d : Device) : bool :=
  negb (Nat.eqb (size (properties d)) 0).

(** [device.get(key, default)] *)
Definition device_get (d : Device) (key dflt : string) : string :=
  default dflt (properties d !! key).

(** ** The outside world *)

(** Library calls, as they appear in the source.  [subprocess.run] is
    always called with [capture_output=True]; its optional [timeout] is
    kept.  [subprocess.Popen] gets the environment with [DISPLAY] set.
    [ThreadStart] is the start of a [launch_chromium] thread on a path. *)
Inductive call : Type :=
| OsMakedirs (path : string) (exist_ok : bool)
| OsRmdir (path : string)
| OsPathExists (path : string)
| SubprocessRun (cmd : list string) (timeout : option Z)
| SubprocessPopen (cmd : list string) (display : string)
| TimeSleep (secs : Z)
| ThreadStart (html_path : string)
| UdevContext
| UdevMonitorFromNetlink
| UdevFilterBy (subsys device_type : string)
| UdevMonitorObserver
| ObserverStart
| ObserverStop.

(** What [subprocess.run] returns. *)
Record CompletedProcess : Type := mkCompleted {
  returncode : Z;
  stderr : string
}.

(** The environment answers every call; the answer may depend on all the
    calls made so far.  [raises] says whether the call fails and how;
    [completed] and [path_exists] give the value of the calls that return
    one.  [time.sleep] and [os.path.exists] never raise. *)
Record Env : Type := mkEnv {
  raises : list call -> call -> option Py.failure;
  completed : list call -> list string -> CompletedProcess;
  path_exists : list call -> string -> bool
}.

(** ** Logging *)

Inductive level : Type := INFO | WARNING | ERROR.

Record log_record : Type := mkLog {
  levelname : level;
  message : string
}.

(** ** Monitor state *)

(** [mounted_devices] is the field of [USBMonitor]; [trace] and [log] are
    the calls made and the records logged so far, oldest first; [threads]
    holds the argument of every [launch_chromium] thread that was started
    and has not run yet; [observer_running] tells whether the udev observer
    thread is delivering events. *)
Record State : Type := mkState {
  mounted_devices : gset string;
  trace : list call;
  log : list log_record;
  threads : list string;
  observer_running : bool
}.

Definition initial_state : State :=
  {| mounted_devices := ∅; trace := []; log := []; threads := [];
     observer_running := false |}.

Definition set_mounted (f : gset string -> gset string) (s : State) : State :=
  {| mounted_devices := f (mounted_devices s); trace := trace s; log := log s;
     threads := threads s; observer_running := observer_running s |}.
Definition add_call (c : call) (s : State) : State :=
  {| mounted_devices := mounted_devices s; trace := trace s ++ [c]; log := log s;
     threads := threads s; observer_running := observer_running s |}.
Definition add_log (r : log_record) (s : State) : State :=
  {| mounted_devices := mounted_devices s; trace := trace s; log := log s ++ [r];
     threads := threads s; observer_running := observer_running s |}.
Definition set_threads (f : list string -> list string) (s : State) : State :=
  {| mounted_devices := mounted_devices s; trace := trace s; log := log s;
     threads := f (threads s); observer_running := observer_running s |}.
Definition set_observer (b : bool) (s : State) : State :=
  {| mounted_devices := mounted_devices s; trace := trace s; log := log s;
     threads := threads s; observer_running := b |}.

(** ** A state and exception monad *)

Inductive result (A : Type) : Type :=
| Ok (a : A)
| Raise (e : Py.exn).
Arguments Ok {A} a.
Arguments Raise {A} e.

Definition M (A : Type) : Type := State -> result A * State.

Definition ret {A} (a : A) : M A := fun s => (Ok a, s).

Definition bind {A B} (m : M A) (k : A -> M B) : M B :=
  fun s => match m s with
           | (Ok a, s') => k a s'
           | (Raise e, s') => (Raise e, s')
           end.

Definition raise {A} (e : Py.exn) : M A := fun s => (Raise e, s).

Declare Scope py_scope.
Delimit Scope py_scope with py.
Notation "x <- m ;; k" := (bind m (fun x => k))
  (at level 100, m at next level, right associativity) : py_scope.
Notation "m ;; k" := (bind m (fun _ => k))
  (at level 100, right associativity) : py_scope.
Local Open Scope py_scope.

(** [try: body  except Exception as e: handler e] *)
Definition try_except {A} (body : M A) (handler : Py.failure -> M A) : M A :=
  fun s => match body s with
           | (Raise (Py.Failure f), s') => handler f s'
           | r => r
           end.

(** [try: body  except OSError: handler] *)
Definition try_except_OSError {A} (body : M A) (handler : M A) : M A :=
  fun s => match body s with
           | (Raise (Py.Failure (Py.OSError msg)), s') => handler s'
           | r => r
           end.

(** [try: body  finally: final] *)
Definition try_finally {A} (body : M A) (final : M unit) : M A :=
  fun s => match body s with
           | (r, s') => match final s' with
                        | (Ok _, s'') => (r, s'')
                        | (Raise e, s'') => (Raise e, s'')
                        end
           end.

(** [for x in l: body x] *)
Fixpoint for_each {A} (l : list A) (body : A -> M unit) : M unit :=
  match l with
  | [] => ret tt
  | x :: l' => body x;; for_each l' body
  end.

Definition get_state : M State := fun s => (Ok s, s).
Definition modify (f : State -> State) : M unit := fun s => (Ok tt, f s).

(** ** The program *)

(** The dictionary built by [get_device_info]. *)
Record device_info : Type := mkInfo {
  name : string;
  label : string;
  uuid : string;
  filesystem : string
}.

(** The text of [f"{device_info}"]; quotes inside the values are not
    escaped here. *)
Definition str_of_info (i : device_info) : string :=
  "{'name': '" +:+ name i +:+ "', 'label': '" +:+ label i +:+
  "', 'uuid': '" +:+ uuid i +:+ "', 'filesystem': '" +:+ filesystem i +:+ "'}".

(** The loop of [is_usb_device], without the surrounding [try]:
    [while current:] ends the walk at [None] and also at a device that is
    false, one without properties. *)
Fixpoint usb_walk (current : Device) : result bool :=
  match current with
  | mkDevice _ _ subsys up =>
      if negb (device_truthy current) then Ok false
      else match subsys with
           | inl f => Raise (Py.Failure f)
           | inr subsys =>
               if String.eqb subsys "usb" then Ok true
               else match up with
                    | ParentNone => Ok false
                    | ParentRaises f => Raise (Py.Failure f)
                    | ParentDevice p => usb_walk p
                    end
           end
  end.

Definition is_usb_device (device : Device) : bool :=
  match usb_walk device with
  | Ok b => b
  | Raise _ => false
  end.

Definition get_device_info (device : Device) : device_info :=
  let device_name := device_get device "DEVNAME" "" in
  let device_label := device_get device "ID_FS_LABEL" "" in
  let device_uuid := device_get device "ID_FS_UUID" "" in
  {| name := device_name;
     label := Py.str_or device_label
                ("usb_" +:+ Py.last_item (Py.split "/" device_name));
     uuid := device_uuid;
     filesystem := device_get device "ID_FS_TYPE" "unknown" |}.

Definition action_is (device : Device) (a : string) : bool :=
  match action device with
  | Some x => String.eqb x a
  | None => false
  end.

Section Monitor.

Variable env : Env.

(** *** Library calls *)

Definition lib_call (c : call) : M unit :=
  fun s => match raises env (trace s) c with
           | Some f => (Raise (Py.Failure f), add_call c s)
           | None => (Ok tt, add_call c s)
           end.

Definition os_makedirs (path : string) (exist_ok : bool) : M unit :=
  lib_call (OsMakedirs path exist_ok).
Definition os_rmdir (path : string) : M unit := lib_call (OsRmdir path).
Definition os_path_exists (path : string) : M bool :=
  fun s => (Ok (path_exists env (trace s) path), add_call (OsPathExists path) s).
Definition subprocess_run (cmd : list string) (timeout : option Z)
  : M CompletedProcess :=
  fun s => match raises env (trace s) (SubprocessRun cmd timeout) with
           | Some f => (Raise (Py.Failure f), add_call (SubprocessRun cmd timeout) s)
           | None => (Ok (completed env (trace s) cmd),
                      add_call (SubprocessRun cmd timeout) s)
           end.
Definition subprocess_Popen (cmd : list string) (display : string) : M unit :=
  lib_call (SubprocessPopen cmd display).
Definition time_sleep (secs : Z) : M unit := modify (add_call (TimeSleep secs)).
Definition sys_exit {A} (code : Z) : M A := raise (Py.SystemExit code).

Definition logger_info (msg : string) : M unit := modify (add_log (mkLog INFO msg)).
Definition logger_warning (msg : string) : M unit :=
  modify (add_log (mkLog WARNING msg)).
Definition logger_error (msg : string) : M unit := modify (add_log (mkLog ERROR msg)).

(** [threading.Thread(target=self.launch_chromium, args=(p,), daemon=True).start()]:
    starting the thread may raise; when it does not, the thread is
    recorded as started and its body runs when it is scheduled. *)
Definition thread_start (html_path : string) : M unit :=
  lib_call (ThreadStart html_path);;
  modify (set_threads (fun l => l ++ [html_path])).

(** *** USBMonitor *)

Definition USBMonitor_init : M unit :=
  lib_call UdevContext;;
  lib_call UdevMonitorFromNetlink;;
  lib_call (UdevFilterBy "block" "partition");;
  modify (set_mounted (fun _ => ∅));;
  os_makedirs MOUNT_BASE true.

Definition mount_device (info : device_info) : M (option string) :=
  let device_name := name info in
  let mount_point := Py.os_path_join MOUNT_BASE (label info) in
  try_except
    (os_makedirs mount_point true;;
     let cmd := ["sudo"; "mount"; device_name; mount_point] in
     result <- subprocess_run cmd None;;
     if returncode result =? 0 then
       logger_info ("Successfully mounted " +:+ device_name +:+ " to " +:+ mount_point);;
       ret (Some mount_point)
     else
       logger_error ("Failed to mount " +:+ device_name +:+ ": " +:+ stderr result);;
       ret None)
    (fun e =>
       logger_error ("Error mounting device " +:+ device_name +:+ ": "
                     +:+ Py.str_of_failure e);;
       ret None).

Definition kill_chromium : M unit :=
  try_except
    (subprocess_run ["pkill"; "-f"; "chromium"] None;;
     logger_info "Killed existing Chromium processes")
    (fun e =>
       logger_warning ("Could not kill Chromium processes: " +:+ Py.str_of_failure e)).

Definition unmount_device (info : device_info) : M unit :=
  let mount_point := Py.os_path_join MOUNT_BASE (label info) in
  try_except
    (kill_chromium;;
     time_sleep 2;;
     let cmd := ["sudo"; "umount"; mount_point] in
     result <- subprocess_run cmd None;;
     if returncode result =? 0 then
       logger_info ("Successfully unmounted " +:+ mount_point);;
       try_except_OSError
         (os_rmdir mount_point)
         (logger_warning ("Could not remove mount point directory " +:+ mount_point))
     else
       logger_error ("Failed to unmount " +:+ mount_point +:+ ": " +:+ stderr result))
    (fun e => logger_error ("Error unmounting device: " +:+ Py.str_of_failure e)).

(** Returns [Some tt] for the process handle and [None] for [None]. *)
Definition launch_chromium (html_path : string) : M (option unit) :=
  try_except
    (kill_chromium;;
     time_sleep 1;;
     which <- subprocess_run ["which"; "chromium"] None;;
     let chromium_cmd :=
       if returncode which =? 0 then "chromium" else "chromium-browser" in
     let cmd := [chromium_cmd; "--kiosk"; "--no-sandbox"; "--disable-web-security";
                 "--disable-features=TranslateUI";
                 "--disable-ipc-flooding-protection"; "--start-fullscreen";
                 "file://" +:+ html_path] in
     subprocess_Popen cmd DISPLAY;;
     logger_info ("Launched Chromium in kiosk mode with " +:+ html_path);;
     ret (Some tt))
    (fun e =>
       logger_error ("Error launching Chromium: " +:+ Py.str_of_failure e);;
       ret None).

Definition handle_device_add (device : Device) : M unit :=
  if negb (is_usb_device device) then ret tt
  else
    let info := get_device_info device in
    logger_info ("USB device inserted: " +:+ str_of_info info);;
    time_sleep 2;;
    mount_point <- mount_device info;;
    match mount_point with
    | None => ret tt
    | Some mount_point =>
        if negb (Py.truthy mount_point) then ret tt
        else
          modify (set_mounted (fun m => {[name info]} ∪ m));;
          let index_path := Py.os_path_join mount_point "index.html" in
          found <- os_path_exists index_path;;
          if found then
            logger_info ("Found index.html at " +:+ index_path);;
            thread_start index_path
          else
            logger_info ("No index.html found in " +:+ mount_point)
    end.

Definition handle_device_remove (device : Device) : M unit :=
  if negb (is_usb_device device) then ret tt
  else
    let info := get_device_info device in
    let device_name := name info in
    s <- get_state;;
    if bool_decide (device_name ∈ mounted_devices s) then
      logger_info ("USB device removed: " +:+ str_of_info info);;
      unmount_device info;;
      modify (set_mounted (fun m => m ∖ {[device_name]}))
    else ret tt.

Definition handle_udev_event (device : Device) : M unit :=
  if action_is device "add" then handle_device_add device
  else if action_is device "remove" then handle_device_remove device
  else ret tt.

Definition cleanup : M unit :=
  logger_info "Cleaning up mounted devices...";;
  s <- get_state;;
  for_each (elements (mounted_devices s))
    (fun device_name =>
       try_except
         (subprocess_run ["sudo"; "umount"; device_name] (Some 10);; ret tt)
         (fun _ => ret tt)).

(** *** The observer thread, the launch threads and the main thread

    After [observer.start()] three kinds of things happen until the
    interrupt arrives: the observer thread receives a device and calls
    the handler it was given, a started [launch_chromium] thread runs, or
    the main thread sleeps for another second.  A schedule lists them in
    the order in which they happen; each runs to completion.  An
    exception that leaves the handler ends the observer thread, and one
    that leaves a launch thread ends that thread; neither reaches the
    main thread, and neither is logged by the program. *)
Inductive sched_item : Type :=
| Deliver (device : Device)
| RunThread
| Tick.

(** A positional argument of a call of the handler. *)
Inductive py_arg : Type :=
| ArgAction (a : option string)
| ArgDevice (d : Device).

(** The bound method [self.handle_udev_event] as a callable: it takes
    exactly one positional argument, the device.  A call with another
    number of arguments is a [TypeError], raised before the body runs; a
    call on something that is not a device fails at [device.action]. *)
Definition handle_udev_event_callable (args : list py_arg) : M unit :=
  match args with
  | [ArgDevice d] => handle_udev_event d
  | [ArgAction _] =>
      raise (Py.Failure (Py.OtherError "'str' object has no attribute 'action'"))
  | [] =>
      raise (Py.Failure (Py.OtherError
        "USBMonitor.handle_udev_event() missing 1 required positional argument: 'device'"))
  | _ :: _ :: _ =>
      raise (Py.Failure (Py.OtherError
        "USBMonitor.handle_udev_event() takes 2 positional arguments but 3 were given"))
  end.

(** [pyudev.MonitorObserver(self.monitor, self.handle_udev_event)]: the
    second positional parameter of the constructor is [event_handler],
    which the observer thread calls with two arguments, the action and
    the device. *)
Definition event_handler (device : Device) : M unit :=
  handle_udev_event_callable [ArgAction (action device); ArgDevice device].

Definition deliver (device : Device) : M unit :=
  fun s =>
    if observer_running s then
      match event_handler device s with
      | (Ok _, s') => (Ok tt, s')
      | (Raise _, s') => (Ok tt, set_observer false s')
      end
    else (Ok tt, s).

Definition run_thread : M unit :=
  fun s =>
    match threads s with
    | [] => (Ok tt, s)
    | html_path :: rest =>
        match launch_chromium html_path (set_threads (fun _ => rest) s) with
        | (_, s') => (Ok tt, s')
        end
    end.

Definition step (i : sched_item) : M unit :=
  match i with
  | Deliver device => deliver device
  | RunThread => run_thread
  | Tick => time_sleep 1
  end.

(** [while True: time.sleep(1)], left only by the interrupt.  The
    interrupt is taken to arrive here, while the main thread sleeps in the
    loop that waits for it; an interrupt during the construction of the
    monitor or during [cleanup] is outside this embedding. *)
Definition main_loop (sched : list sched_item) : M unit :=
  for_each sched step;;
  raise Py.KeyboardInterrupt.

Definition observer_start : M unit :=
  lib_call ObserverStart;; modify (set_observer true).
Definition observer_stop : M unit :=
  lib_call ObserverStop;; modify (set_observer false).

Definition start_monitoring (sched : list sched_item) : M unit :=
  logger_info "Starting USB device monitoring...";;
  try_finally
    (fun s =>
       match (lib_call UdevMonitorObserver;;
              observer_start;;
              logger_info "USB monitor started successfully. Press Ctrl+C to stop.";;
              main_loop sched) s with
       | (Raise Py.KeyboardInterrupt, s') =>
           (logger_info "Received interrupt signal, stopping monitor...";;
            observer_stop) s'
       | (Raise (Py.Failure e), s') =>
           logger_error ("Error in USB monitor: " +:+ Py.str_of_failure e) s'
       | r => r
       end)
    cleanup.

Definition main (sched : list sched_item) : M unit :=
  logger_info "Starting Casette USB Monitor Service";;
  try_except
    (USBMonitor_init;;
     start_monitoring sched)
    (fun e =>
       logger_error ("Fatal error: " +:+ Py.str_of_failure e);;
       sys_exit 1).

End Monitor.

(** The status with which the interpreter ends: 0 after a normal return,
    the code of [sys.exit], 1 after an uncaught exception and 130 after an
    uncaught interrupt. *)
Definition exit_status (r : result unit) : Z :=
  match r with
  | Ok _ => 0
  | Raise (Py.SystemExit code) => code
  | Raise (Py.Failure _) => 1
  | Raise Py.KeyboardInterrupt => 130
  end.

(** ** Observations on a run *)

(** The calls and records a computation adds to a state. *)
Definition new_calls (s s' : State) : list call := drop (length (trace s)) (trace s').
Definition new_log (s s' : State) : list log_record := drop (length (log s)) (log s').

Definition is_umount (c : call) : bool :=
  match c with
  | SubprocessRun ("sudo" :: "umount" :: _) _ => true
  | _ => false
  end.

Definition is_popen (c : call) : bool :=
  match c with
  | SubprocessPopen _ _ => true
  | _ => false
  end.

(** ** Notions of the specification *)

(** The device and its ancestors, as far as the parent links resolve. *)
Fixpoint parent_chain (d : Device) : list Device :=
  match d with
  | mkDevice _ _ _ up =>
      d :: match up with
           | ParentDevice p => parent_chain p
           | ParentNone | ParentRaises _ => []
           end
  end.

Definition in_usb_subsystem (d : Device) : bool :=
  match subsystem d with
  | inr subsys => String.eqb subsys "usb"
  | inl _ => false
  end.

(** The device or one of its ancestors belongs to the USB subsystem. *)
Definition usb_in_chain (d : Device) : bool := existsb in_usb_subsystem (parent_chain d).

(** The last component of a path: what follows its last "/". *)
Fixpoint basename_from (acc p : string) : string :=
  match p with
  | EmptyString => acc
  | String a p' =>
      if Ascii.eqb a "/"%char then basename_from "" p'
      else basename_from (acc +:+ String a "") p'
  end.

Definition basename (p : string) : string := basename_from "" p.

(** The exit status of the mount utility when [mount_device] runs after
    the calls [h]: [None] when [os.makedirs] or [subprocess.run] raises. *)
Definition mount_command (info : device_info) : list string :=
  ["sudo"; "mount"; name info; Py.os_path_join MOUNT_BASE (label info)].

Definition mount_result (env : Env) (h : list call) (info : device_info)
  : option CompletedProcess :=
  let mount_point := Py.os_path_join MOUNT_BASE (label info) in
  match raises env h (OsMakedirs mount_point true) with
  | Some _ => None
  | None =>
      let h' := h ++ [OsMakedirs mount_point true] in
      match raises env h' (SubprocessRun (mount_command info) None) with
      | Some _ => None
      | None => Some (completed env h' (mount_command info))
      end
  end.

(** The result of the umount utility when [unmount_device] runs after the
    calls [h]: [None] when [subprocess.run] raises. *)
Definition umount_command (info : device_info) : list string :=
  ["sudo"; "umount"; Py.os_path_join MOUNT_BASE (label info)].

Definition pkill_call : call := SubprocessRun ["pkill"; "-f"; "chromium"] None.

Definition umount_result (env : Env) (h : list call) (info : device_info)
  : option CompletedProcess :=
  let h' := h ++ [pkill_call; TimeSleep 2] in
  match raises env h' (SubprocessRun (umount_command info) None) with
  | Some _ => None
  | None => Some (completed env h' (umount_command info))
  end.

(** The command line with which [launch_chromium] starts the viewer. *)
Definition kiosk_command (chromium_cmd html_path : string) : list string :=
  [chromium_cmd; "--kiosk"; "--no-sandbox"; "--disable-web-security";
   "--disable-features=TranslateUI"; "--disable-ipc-flooding-protection";
   "--start-fullscreen"; "file://" +:+ html_path].

(** The exception with which a sequence of calls made after [h] stops, if
    one of them raises: that of the first call that does. *)
Fixpoint first_failure (env : Env) (h : list call) (cs : list call)
  : option Py.failure :=
  match cs with
  | [] => None
  | c :: cs' =>
      match raises env h c with
      | Some f => Some f
      | None => first_failure env (h ++ [c]) cs'
      end
  end.

(** The calls of [USBMonitor.__init__], and those with which
    [start_monitoring] starts the observer. *)
Definition init_calls : list call :=
  [UdevContext; UdevMonitorFromNetlink; UdevFilterBy "block" "partition";
   OsMakedirs MOUNT_BASE true].

Definition observer_calls : list call := [UdevMonitorObserver; ObserverStart].

(** The calls that set up the hotplug subscription. *)
Definition is_subscription_call (c : call) : bool :=
  match c with
  | UdevContext | UdevMonitorFromNetlink | UdevFilterBy _ _
  | UdevMonitorObserver | ObserverStart => true
  | _ => false
  end.

(** The exception that [mount_device] catches when it runs after [h]. *)
Definition mount_failure (env : Env) (h : list call) (info : device_info)
  : option Py.failure :=
  first_failure env h
    [OsMakedirs (Py.os_path_join MOUNT_BASE (label info)) true;
     SubprocessRun (mount_command info) None].

(** The exception that [launch_chromium] catches when it runs after [h]:
    that of [which] or of [Popen]. *)
Definition launch_failure (env : Env) (h : list call) (html_path : string)
  : option Py.failure :=
  let h1 := h ++ [pkill_call; TimeSleep 1] in
  let which := ["which"; "chromium"] in
  match raises env h1 (SubprocessRun which None) with
  | Some f => Some f
  | None =>
      let chromium_cmd :=
        if returncode (completed env h1 which) =? 0 then "chromium"
        else "chromium-browser" in
      raises env (h1 ++ [SubprocessRun which None])
        (SubprocessPopen (kiosk_command chromium_cmd html_path) DISPLAY)
  end.

(** The call that [cleanup] makes for a recorded device, and one pass of
    its loop body: the call is made and its outcome dropped. *)
Definition cleanup_call (device_name : string) : call :=
  SubprocessRun ["sudo"; "umount"; device_name] (Some 10).

Definition cleanup_attempt (env : Env) (device_name : string) : M unit :=
  try_except
    (subprocess_run env ["sudo"; "umount"; device_name] (Some 10);; ret tt)
    (fun _ => ret tt).

(** ** Sample devices and environments *)

Module Sample.

Definition usb_hub : Device :=
  mkDevice None {[ "DEVTYPE" := "usb_device" ]} (inr "usb") ParentNone.

Definition usb_partition (act dev : string) : Device :=
  mkDevice (Some act) {[ "DEVNAME" := dev ]} (inr "block") (ParentDevice usb_hub).

Definition sdb1_add : Device := usb_partition "add" "/dev/sdb1".
Definition sdb1_remove : Device := usb_partition "remove" "/dev/sdb1".

(** A SATA partition: no USB ancestor. *)
Definition sda1_add : Device :=
  mkDevice (Some "add") {[ "DEVNAME" := "/dev/sda1" ]} (inr "block")
    (ParentDevice (mkDevice None {[ "DEVTYPE" := "scsi_device" ]} (inr "scsi")
       (ParentDevice (mkDevice None {[ "DRIVER" := "ahci" ]} (inr "pci") ParentNone)))).

(** A partition whose parent cannot be read any more. *)
Definition gone_add : Device :=
  mkDevice (Some "add") {[ "DEVNAME" := "/dev/sdc1" ]} (inr "block")
    (ParentRaises (Py.OSError "No such device")).

(** A USB partition whose filesystem label is the empty string. *)
Definition blank_label_add : Device :=
  mkDevice (Some "add") {[ "DEVNAME" := "/dev/sdb1"; "ID_FS_LABEL" := "" ]}
    (inr "block") (ParentDevice usb_hub).

Definition photos_add : Device :=
  mkDevice (Some "add") {[ "DEVNAME" := "/dev/sdb1"; "ID_FS_LABEL" := "PHOTOS" ]}
    (inr "block") (ParentDevice usb_hub).

(** Every call succeeds, every utility exits with 0, every file exists. *)
Definition env_ok : Env :=
  {| raises := fun _ _ => None;
     completed := fun _ _ => mkCompleted 0 "";
     path_exists := fun _ _ => true |}.

(** The utility [util] ("mount" or "umount") exits with 32 and says [text]. *)
Definition env_sudo_fails (util text : string) : Env :=
  {| raises := fun _ _ => None;
     completed := fun _ cmd =>
       match cmd with
       | "sudo" :: u :: _ =>
           if String.eqb u util then mkCompleted 32 text else mkCompleted 0 ""
       | _ => mkCompleted 0 ""
       end;
     path_exists := fun _ _ => true |}.

(** [os.makedirs] is refused. *)
Definition env_makedirs_fails : Env :=
  {| raises := fun _ c =>
       match c with
       | OsMakedirs _ _ => Some (Py.OSError "Permission denied")
       | _ => None
       end;
     completed := fun _ _ => mkCompleted 0 "";
     path_exists := fun _ _ => true |}.

(** The observer thread cannot be started. *)
Definition env_observer_fails : Env :=
  {| raises := fun _ c =>
       match c with
       | ObserverStart => Some (Py.OtherError "can't start new thread")
       | _ => None
       end;
     completed := fun _ _ => mkCompleted 0 "";
     path_exists := fun _ _ => true |}.


Definition sdb1_mounted : State :=
  {| mounted_devices := {[ "/dev/sdb1" ]}; trace := []; log := []; threads := [];
     observer_running := true |}.

Definition sdb1_info : device_info :=
  {| name := "/dev/sdb1"; label := "usb_sdb1"; uuid := ""; filesystem := "unknown" |}.

End Sample.


(** ** Further notions *)

(** [sep.join(l)] *)
Fixpoint str_join (sep : string) (l : list string) : string :=
  match l with
  | [] => ""
  | [x] => x
  | x :: l' => x +:+ sep +:+ str_join sep l'
  end.

(** [c in s] for a character [c]. *)
Fixpoint contains_char (c : ascii) (s : string) : bool :=
  match s with
  | EmptyString => false
  | String a s' => (Ascii.eqb a c || contains_char c s')%bool
  end.

(** Every device along the whole chain has at least one property, and
    every read of [subsystem] and [parent] succeeds. *)
Fixpoint readable (d : Device) : bool :=
  match d with
  | mkDevice _ _ subsys up =>
      if negb (device_truthy d) then false
      else match subsys, up with
           | inl _, _ => false
           | inr _, ParentNone => true
           | inr _, ParentRaises _ => false
           | inr _, ParentDevice p => readable p
           end
  end.

Definition is_path_exists (c : call) : bool :=
  match c with
  | OsPathExists _ => true
  | _ => false
  end.

Definition is_mount (c : call) : bool :=
  match c with
  | SubprocessRun ("sudo" :: "mount" :: _) _ => true
  | _ => false
  end.

Definition which_call : call := SubprocessRun ["which"; "chromium"] None.

(** The calls with which a device is handled: running a program, looking
    for the marker, removing a mount point, starting a thread. *)
Definition handles_device (c : call) : bool :=
  match c with
  | SubprocessRun _ _ | SubprocessPopen _ _ | ThreadStart _
  | OsPathExists _ | OsRmdir _ => true
  | _ => false
  end.

(** Nothing has been done for any device: the record is empty, no thread
    was started and no such call was made. *)
Definition untouched (s : State) : Prop :=
  mounted_devices s = ∅ ∧ threads s = [] ∧ List.filter handles_device (trace s) = [].

(** A computation that leaves an untouched state untouched. *)
Definition keeps_untouched {A} (m : M A) : Prop :=
  ∀ s, untouched s → untouched (snd (m s)).

Module Sample2.

(** A USB partition without any property. *)
Definition bare_add : Device :=
  mkDevice (Some "add") ∅ (inr "block") (ParentDevice Sample.usb_hub).

(** A second USB partition with the label that [sdb1] gets by default. *)
Definition twin_remove : Device :=
  mkDevice (Some "remove") {[ "DEVNAME" := "/dev/sdc1"; "ID_FS_LABEL" := "usb_sdb1" ]}
    (inr "block") (ParentDevice Sample.usb_hub).

Definition both_mounted : State :=
  {| mounted_devices := {[ "/dev/sdb1"; "/dev/sdc1" ]}; trace := []; log := [];
     threads := []; observer_running := true |}.

(** A USB partition whose USB ancestor has no property at all. *)
Definition bare_hub_add : Device :=
  mkDevice (Some "add") {[ "DEVNAME" := "/dev/sdd1" ]} (inr "block")
    (ParentDevice (mkDevice None ∅ (inr "usb") ParentNone)).

(** Threads cannot be started. *)
Definition env_no_threads : Env :=
  {| raises := fun _ c =>
       match c with
       | ThreadStart _ => Some (Py.OtherError "can't start new thread")
       | _ => None
       end;
     completed := fun _ _ => mkCompleted 0 "";
     path_exists := fun _ _ => true |}.

(** [which] is not installed. *)
Definition env_no_which : Env :=
  {| raises := fun _ c =>
       match c with
       | SubprocessRun ("which" :: _) _ => Some (Py.OSError "No such file or directory: 'which'")
       | _ => None
       end;
     completed := fun _ _ => mkCompleted 0 "";
     path_exists := fun _ _ => true |}.

(** [chromium] is not on the path: [which] exits with 1. *)
Definition env_chromium_browser : Env :=
  {| raises := fun _ _ => None;
     completed := fun _ cmd =>
       match cmd with
       | "which" :: _ => mkCompleted 1 ""
       | _ => mkCompleted 0 ""
       end;
     path_exists := fun _ _ => true |}.

(** The observer cannot be stopped. *)
Definition env_stop_fails : Env :=
  {| raises := fun _ c =>
       match c with
       | ObserverStop => Some (Py.OtherError "observer not running")
       | _ => None
       end;
     completed := fun _ _ => mkCompleted 0 "";
     path_exists := fun _ _ => true |}.

(** The mount point cannot be removed after the unmount. *)
Definition env_rmdir_fails : Env :=
  {| raises := fun _ c =>
       match c with
       | OsRmdir _ => Some (Py.OSError "Directory not empty")
       | _ => None
       end;
     completed := fun _ _ => mkCompleted 0 "";
     path_exists := fun _ _ => true |}.

End Sample2.

(** * Properties *)

(** ** Strings and paths *)

Lemma split_nonempty sep s : Py.split sep s ≠ [].
Proof.
  destruct s as [|a s]; simpl; [done|].
  destruct (Ascii.eqb a sep); [done|].
  by destruct (Py.split sep s).
Qed.

Lemma append_empty_r (s : string) : s +:+ "" = s.
Proof.
  induction s as [|a s IH]; [done|].
  change (String a (s +:+ "") = String a s). by f_equal.
Qed.

Lemma append_assoc_char (s t : string) (a : ascii) :
  (s +:+ String a "") +:+ t = s +:+ String a t.
Proof.
  induction s as [|b s IH]; [done|].
  change (String b ((s +:+ String a "") +:+ t) = String b (s +:+ String a t)).
  by f_equal.
Qed.

Lemma basename_from_split acc p :
  basename_from acc p =
  Py.last_item (match Py.split "/" p with
                | h :: t => (acc +:+ h) :: t
                | [] => []
                end).
Proof.
  revert acc. induction p as [|a p IH]; intros acc; simpl.
  - by rewrite append_empty_r.
  - destruct (Ascii.eqb a "/") eqn:Ha.
    + rewrite IH, append_empty_r.
      pose proof (split_nonempty "/" p) as Hne.
      destruct (Py.split "/" p) as [|h t]; [done|]. reflexivity.
    + rewrite IH.
      destruct (Py.split "/" p) as [|h t] eqn:Hs.
      * by destruct (split_nonempty "/" p).
      * by rewrite append_assoc_char.
Qed.

(** [name.split('/')[-1]] is the last path component. *)
Lemma split_last_basename p : Py.last_item (Py.split "/" p) = basename p.
Proof.
  unfold basename. rewrite basename_from_split.
  by destruct (Py.split "/" p).
Qed.

Lemma truthy_spec s : Py.truthy s = true ↔ s ≠ "".
Proof.
  unfold Py.truthy. destruct (String.eqb_spec s ""); simpl; split; congruence.
Qed.

Lemma os_path_join_relative a b :
  a ≠ "" → Py.endswith_sep a = false → Py.startswith_sep b = false →
  Py.os_path_join a b = a +:+ "/" +:+ b.
Proof.
  intros Ha Hend Hb. unfold Py.os_path_join. rewrite Hb, Hend.
  by destruct (String.eqb_spec a "").
Qed.

(** A label that does not start with "/" is mounted below [MOUNT_BASE];
    one that does replaces the base, as [os.path.join] has it. *)
Lemma mount_point_relative l :
  Py.startswith_sep l = false →
  Py.os_path_join MOUNT_BASE l = "/mnt/casette/" +:+ l.
Proof. intros Hl. by rewrite os_path_join_relative. Qed.

Lemma mount_point_absolute l :
  Py.startswith_sep l = true → Py.os_path_join MOUNT_BASE l = l.
Proof. intros Hl. unfold Py.os_path_join. by rewrite Hl. Qed.

Lemma mount_point_truthy l : Py.truthy (Py.os_path_join MOUNT_BASE l) = true.
Proof.
  destruct l as [|a l]; [reflexivity|].
  unfold Py.os_path_join, Py.startswith_sep.
  by destruct (Ascii.eqb a "/").
Qed.

(** ** Device Classifier *)

Local Arguments device_truthy : simpl never.

Lemma usb_walk_true (d : Device) : usb_walk d = Ok true → usb_in_chain d = true.
Proof.
  revert d. fix IH 1. intros [a props subsys up]. simpl.
  destruct (device_truthy _); simpl; [|discriminate].
  destruct subsys as [f|subsys]; [discriminate|].
  unfold usb_in_chain. simpl. unfold in_usb_subsystem at 1. simpl.
  destruct (String.eqb subsys "usb"); [done|]. simpl.
  destruct up as [|f|p]; [discriminate..|].
  intros H. apply (IH p H).
Qed.

Lemma usb_walk_raise (d : Device) (e : Py.exn) :
  usb_walk d = Raise e → is_usb_device d = false.
Proof. unfold is_usb_device. by intros ->. Qed.

(** C5. A device for which neither it nor any ancestor in its parent chain
    is in the USB subsystem is classified as not USB, and so is a device
    for which reading the chain raises: [is_usb_device] answers [false]
    there, it does not raise. *)
Theorem is_usb_device_false (d : Device) :
  usb_in_chain d = false ∨ (∃ e, usb_walk d = Raise e) →
  is_usb_device d = false.
Proof.
  intros [Hchain | [e He]]; unfold is_usb_device.
  - destruct (usb_walk d) as [[|]|e] eqn:Hw; [|done..].
    apply usb_walk_true in Hw. congruence.
  - by apply usb_walk_raise in He.
Qed.

Lemma is_usb_device_false_witness :
  (usb_in_chain Sample.sda1_add = false ∨ (∃ e, usb_walk Sample.sda1_add = Raise e)) ∧
  (usb_in_chain Sample.gone_add = false ∨ (∃ e, usb_walk Sample.gone_add = Raise e)) ∧
  is_usb_device Sample.sda1_add = false ∧
  is_usb_device Sample.gone_add = false.
Proof.
  assert (H1 : usb_in_chain Sample.sda1_add = false) by reflexivity.
  assert (H2 : ∃ e, usb_walk Sample.gone_add = Raise e) by (eexists; reflexivity).
  split; [by left|]. split; [by right|]. split.
  - apply (is_usb_device_false Sample.sda1_add). by left.
  - apply (is_usb_device_false Sample.gone_add). by right.
Defined.

(** A positive answer always comes from a USB node in the chain. *)
Lemma is_usb_device_true (d : Device) : is_usb_device d = true → usb_in_chain d = true.
Proof.
  unfold is_usb_device. destruct (usb_walk d) as [[|]|e] eqn:Hw; [|done..].
  intros _. by apply usb_walk_true.
Qed.

Lemma label_nonempty (l : string) : "usb_" +:+ l ≠ "".
Proof. done. Qed.

(** C6 (amended). Without an [ID_FS_LABEL] property, and also when the
    property is the empty string, [get_device_info] gives the label
    ["usb_"] followed by the last component of the device path; a
    non-empty label is used as it is.  The label is never empty. *)
Theorem get_device_info_label (d : Device) :
  let fallback := "usb_" +:+ basename (device_get d "DEVNAME" "") in
  (properties d !! "ID_FS_LABEL" = None → label (get_device_info d) = fallback) ∧
  (properties d !! "ID_FS_LABEL" = Some "" → label (get_device_info d) = fallback) ∧
  (∀ l, properties d !! "ID_FS_LABEL" = Some l → l ≠ "" →
        label (get_device_info d) = l) ∧
  label (get_device_info d) ≠ "".
Proof.
  intros fallback.
  assert (Hlabel : label (get_device_info d) =
                   Py.str_or (default "" (properties d !! "ID_FS_LABEL")) fallback).
  { unfold get_device_info; simpl. by rewrite split_last_basename. }
  rewrite Hlabel. unfold Py.str_or. repeat split.
  - by intros ->.
  - by intros ->.
  - intros l -> Hl. simpl. apply truthy_spec in Hl. by rewrite Hl.
  - destruct (Py.truthy (default "" (properties d !! "ID_FS_LABEL"))) eqn:Ht.
    + by apply truthy_spec.
    + apply label_nonempty.
Qed.

Lemma get_device_info_label_witness :
  (properties Sample.sdb1_add !! "ID_FS_LABEL" = None ∧
   label (get_device_info Sample.sdb1_add) = "usb_sdb1") ∧
  (properties Sample.blank_label_add !! "ID_FS_LABEL" = Some "" ∧
   label (get_device_info Sample.blank_label_add) = "usb_sdb1") ∧
  (properties Sample.photos_add !! "ID_FS_LABEL" = Some "PHOTOS" ∧
   "PHOTOS" ≠ "" ∧
   label (get_device_info Sample.photos_add) = "PHOTOS").
Proof.
  assert (H1 : properties Sample.sdb1_add !! "ID_FS_LABEL" = None)
    by (vm_compute; reflexivity).
  assert (H2 : properties Sample.blank_label_add !! "ID_FS_LABEL" = Some "")
    by (vm_compute; reflexivity).
  assert (H3 : properties Sample.photos_add !! "ID_FS_LABEL" = Some "PHOTOS")
    by (vm_compute; reflexivity).
  assert (H4 : "PHOTOS" ≠ "") by discriminate.
  refine (conj (conj H1 _) (conj (conj H2 _) (conj H3 (conj H4 _)))).
  - exact (proj1 (get_device_info_label Sample.sdb1_add) H1).
  - exact (proj1 (proj2 (get_device_info_label Sample.blank_label_add)) H2).
  - exact (proj1 (proj2 (proj2 (get_device_info_label Sample.photos_add)))
             "PHOTOS" H3 H4).
Defined.

(** C6, as stated, fails: a label that is present but empty is not used. *)
Lemma get_device_info_blank_label_counterexample :
  ∃ l, properties Sample.blank_label_add !! "ID_FS_LABEL" = Some l ∧
       label (get_device_info Sample.blank_label_add) ≠ l.
Proof. exists "". split; [vm_compute; reflexivity | vm_compute; discriminate]. Qed.

(** ** Running the monitor symbolically *)

Local Arguments Py.os_path_join : simpl never.
Local Arguments get_device_info : simpl never.
Local Arguments str_of_info : simpl never.

Lemma new_calls_app (s s' : State) (l : list call) :
  trace s' = trace s ++ l → new_calls s s' = l.
Proof. unfold new_calls. intros ->. apply drop_app_length. Qed.

Lemma new_log_app (s s' : State) (l : list log_record) :
  log s' = log s ++ l → new_log s s' = l.
Proof. unfold new_log. intros ->. apply drop_app_length. Qed.

(** Unfold one layer of the program and its monad. *)
Ltac unfold_monitor :=
  unfold handle_udev_event, handle_device_add, handle_device_remove,
    unmount_device, mount_device, launch_chromium, kill_chromium, cleanup,
    thread_start, os_makedirs, os_rmdir, os_path_exists, subprocess_run,
    subprocess_Popen, time_sleep, lib_call, logger_info, logger_warning,
    logger_error, try_except, try_except_OSError, get_state, modify, bind, ret.

(** Decide the next answer of the environment. *)
Ltac env_step :=
  match goal with
  | |- context [raises ?e ?h ?c] =>
      let H := fresh "Hraises" in destruct (raises e h c) as [[?|?]|] eqn:H
  | |- context [Z.eqb (returncode ?r) 0] =>
      let H := fresh "Hcode" in destruct (Z.eqb_spec (returncode r) 0) as [H|H]
  | |- context [path_exists ?e ?h ?p] =>
      let H := fresh "Hexists" in destruct (path_exists e h p) eqn:H
  end.

Ltac run_monitor := unfold_monitor; simpl; repeat (env_step; simpl).

(** The state after [unmount_device]: it never raises, touches neither the
    set of mounted devices nor the threads, and calls [pkill], [sleep(2)]
    and [umount] on the mount point, then [rmdir] when [umount] succeeded. *)
Lemma unmount_device_run env info s :
  let mount_point := Py.os_path_join MOUNT_BASE (label info) in
  let r := unmount_device env info s in
  fst r = Ok tt ∧
  mounted_devices (snd r) = mounted_devices s ∧
  threads (snd r) = threads s ∧
  observer_running (snd r) = observer_running s ∧
  ∃ tail,
    trace (snd r) =
      trace s ++ pkill_call :: TimeSleep 2 :: SubprocessRun (umount_command info) None
              :: tail ∧
    (tail = [] ∨ tail = [OsRmdir mount_point]).
Proof.
  unfold umount_command, pkill_call. simpl.
  run_monitor; repeat split; try reflexivity;
    rewrite <- ?app_assoc; simpl; eauto.
Qed.

Lemma snoc_two {A} (l : list A) (a b : A) : l ++ [a; b] = (l ++ [a]) ++ [b].
Proof. by rewrite <- app_assoc. Qed.

Lemma discard_not_elem (x : string) (m : gset string) : x ∉ m ∖ {[x]}.
Proof. intros [_ Hx]%elem_of_difference. apply Hx. by apply elem_of_singleton. Qed.

(** ** Mount Manager: removal *)



Lemma handle_device_remove_untracked env (d : Device) (s : State) :
  name (get_device_info d) ∉ mounted_devices s →
  handle_device_remove env d s = (Ok tt, s).
Proof.
  intros Hnot. unfold handle_device_remove.
  destruct (is_usb_device d); simpl; [|done].
  unfold bind, get_state. by rewrite bool_decide_eq_false_2.
Qed.

Lemma handle_device_remove_not_usb env (d : Device) (s : State) :
  is_usb_device d = false → handle_device_remove env d s = (Ok tt, s).
Proof. intros Husb. unfold handle_device_remove. by rewrite Husb. Qed.

(** A tracked USB device: log the removal, unmount, discard the name. *)
Lemma handle_device_remove_tracked env (d : Device) (s : State) :
  is_usb_device d = true →
  name (get_device_info d) ∈ mounted_devices s →
  let info := get_device_info d in
  let removed := mkLog INFO ("USB device removed: " +:+ str_of_info info) in
  handle_device_remove env d s =
  (Ok tt, set_mounted (λ m, m ∖ {[name info]})
            (snd (unmount_device env info (add_log removed s)))).
Proof.
  intros Husb Hin info removed. unfold handle_device_remove.
  rewrite Husb. simpl. unfold bind at 1, get_state.
  rewrite bool_decide_eq_true_2 by done.
  unfold bind, logger_info, modify. fold info. fold removed.
  pose proof (unmount_device_run env info (add_log removed s)) as (Hok & _).
  destruct (unmount_device env info (add_log removed s)) as [r s1].
  simpl in Hok. by subst r.
Qed.

(** C3. A removal for a device path that is not recorded as mounted calls
    nothing, logs nothing and does not raise; hence of two removals in a
    row for the same device the second is a no-op, and the two together
    run [umount] at most once. *)
Theorem handle_device_remove_idempotent env (d : Device) (s : State) :
  (name (get_device_info d) ∉ mounted_devices s →
   handle_device_remove env d s = (Ok tt, s)) ∧
  (let r1 := handle_device_remove env d s in
   let r2 := handle_device_remove env d (snd r1) in
   fst r1 = Ok tt ∧ r2 = (Ok tt, snd r1) ∧
   (length (List.filter is_umount (new_calls s (snd r2))) ≤ 1)%nat).
Proof.
  split; [apply handle_device_remove_untracked|].
  intros r1 r2.
  assert (Hnone : new_calls s s = []) by (unfold new_calls; apply drop_all).
  destruct (is_usb_device d) eqn:Husb.
  2:{ subst r2 r1. rewrite !handle_device_remove_not_usb by done. simpl.
      rewrite Hnone. simpl. split_and!; [done..|lia]. }
  destruct (decide (name (get_device_info d) ∈ mounted_devices s)) as [Hin|Hnot].
  2:{ subst r2 r1. rewrite !handle_device_remove_untracked by done. simpl.
      rewrite Hnone. simpl. split_and!; [done..|lia]. }
  subst r2 r1. rewrite (handle_device_remove_tracked env d s Husb Hin). simpl.
  set (info := get_device_info d).
  set (s0 := add_log _ s).
  destruct (unmount_device_run env info s0) as (_ & Hm & _ & _ & tail & Htr & Htail).
  rewrite handle_device_remove_untracked by (simpl; rewrite Hm; apply discard_not_elem).
  split_and!; [done..|]. simpl.
  erewrite new_calls_app by (simpl; exact Htr).
  destruct Htail as [-> | ->]; simpl; lia.
Qed.

Lemma handle_device_remove_idempotent_witness :
  (name (get_device_info Sample.sdb1_remove) ∉ mounted_devices initial_state) ∧
  handle_device_remove Sample.env_ok Sample.sdb1_remove initial_state =
  (Ok tt, initial_state).
Proof.
  assert (H : name (get_device_info Sample.sdb1_remove) ∉ mounted_devices initial_state)
    by apply not_elem_of_empty.
  refine (conj H _).
  exact (proj1 (handle_device_remove_idempotent Sample.env_ok Sample.sdb1_remove
                  initial_state) H).
Defined.

(** C2 (amended). When the device path is recorded as mounted and the
    removal handler runs [umount], which exits with a non-zero status, the
    handler nevertheless takes the device path out of the record: the
    device is no longer considered mounted.  The handler returns normally
    and the last thing it does is to log the failure with the utility's
    diagnostic text. *)
Theorem handle_device_remove_discards env (d : Device) (s : State) (res : CompletedProcess) :
  let info := get_device_info d in
  let mount_point := Py.os_path_join MOUNT_BASE (label info) in
  let umount := SubprocessRun (umount_command info) None in
  let r := handle_device_remove env d s in
  name info ∈ mounted_devices s →
  umount ∈ new_calls s (snd r) →
  umount_result env (trace s) info = Some res →
  returncode res ≠ 0 →
  fst r = Ok tt ∧
  mounted_devices (snd r) = mounted_devices s ∖ {[name info]} ∧
  (name info ∉ mounted_devices (snd r)) ∧
  last (log (snd r)) =
    Some (mkLog ERROR ("Failed to unmount " +:+ mount_point +:+ ": " +:+ stderr res)) ∧
  new_calls s (snd r) = [pkill_call; TimeSleep 2; umount].
Proof.
  intros info mount_point umount r Hin Hrun Hres Hcode.
  assert (Husb : is_usb_device d = true).
  { destruct (is_usb_device d) eqn:Husb; [done|]. subst r.
    rewrite handle_device_remove_not_usb in Hrun by done.
    unfold new_calls in Hrun. simpl in Hrun. rewrite drop_all in Hrun.
    by apply elem_of_nil in Hrun. }
  clear Hrun. subst r umount.
  rewrite (handle_device_remove_tracked env d s Husb Hin). fold info. simpl.
  set (s0 := add_log _ s).
  destruct (unmount_device_run env info s0) as (_ & Hm & _).
  rewrite Hm. split_and!; [done | done | apply discard_not_elem | |];
    clear Hm; unfold umount_result in Hres;
    rewrite snoc_two in Hres; subst s0 mount_point; clearbody info;
    unfold new_calls, umount_command, pkill_call in *; revert Hres;
    run_monitor; intros Hres; simplify_eq; try done.
  1-3: by rewrite last_snoc.
  all: rewrite <- !app_assoc; simpl; by rewrite drop_app_length.
Qed.

Lemma handle_device_remove_discards_witness :
  let env := Sample.env_sudo_fails "umount" "umount: target is busy." in
  let info := get_device_info Sample.sdb1_remove in
  let r := handle_device_remove env Sample.sdb1_remove Sample.sdb1_mounted in
  name info ∈ mounted_devices Sample.sdb1_mounted ∧
  SubprocessRun (umount_command info) None ∈ new_calls Sample.sdb1_mounted (snd r) ∧
  umount_result env (trace Sample.sdb1_mounted) info
    = Some (mkCompleted 32 "umount: target is busy.") ∧
  returncode (mkCompleted 32 "umount: target is busy.") ≠ 0 ∧
  fst r = Ok tt ∧
  (name info ∉ mounted_devices (snd r)).
Proof.
  intros env info r.
  assert (H1 : name info ∈ mounted_devices Sample.sdb1_mounted)
    by (apply (bool_decide_unpack _); vm_compute; exact I).
  assert (Hcalls : new_calls Sample.sdb1_mounted (snd r)
                   = [pkill_call; TimeSleep 2; SubprocessRun (umount_command info) None])
    by (vm_compute; reflexivity).
  assert (H2 : SubprocessRun (umount_command info) None
               ∈ new_calls Sample.sdb1_mounted (snd r))
    by (rewrite Hcalls, !elem_of_cons; auto).
  assert (H3 : umount_result env (trace Sample.sdb1_mounted) info
               = Some (mkCompleted 32 "umount: target is busy."))
    by (vm_compute; reflexivity).
  assert (H4 : returncode (mkCompleted 32 "umount: target is busy.") ≠ 0)
    by discriminate.
  pose proof (handle_device_remove_discards env Sample.sdb1_remove
                Sample.sdb1_mounted _ H1 H2 H3 H4) as (Hok & _ & Hgone & _).
  exact (conj H1 (conj H2 (conj H3 (conj H4 (conj Hok Hgone))))).
Defined.

(** C2, as stated, fails: the device is classified as USB and recorded,
    [umount] is run and exits with 32, and the device path is
    nevertheless dropped from the record. *)
Lemma handle_device_remove_failed_umount_counterexample :
  let env := Sample.env_sudo_fails "umount" "umount: target is busy." in
  let r := handle_device_remove env Sample.sdb1_remove Sample.sdb1_mounted in
  is_usb_device Sample.sdb1_remove = true ∧
  "/dev/sdb1" ∈ mounted_devices Sample.sdb1_mounted ∧
  new_calls Sample.sdb1_mounted (snd r) =
    [pkill_call; TimeSleep 2;
     SubprocessRun ["sudo"; "umount"; "/mnt/casette/usb_sdb1"] None] ∧
  returncode <$> umount_result env (trace Sample.sdb1_mounted) Sample.sdb1_info
    = Some 32 ∧
  "/dev/sdb1" ∉ mounted_devices (snd r).
Proof.
  split_and!.
  - vm_compute. reflexivity.
  - apply (bool_decide_unpack _). vm_compute. exact I.
  - vm_compute. reflexivity.
  - vm_compute. reflexivity.
  - apply (bool_decide_unpack _). vm_compute. exact I.
Qed.

(** ** Mount Manager: shutdown *)

Lemma bind_ok {A B} (m : M A) (k : A → M B) (s s' : State) (a : A) :
  m s = (Ok a, s') → bind m k s = k a s'.
Proof. unfold bind. by intros ->. Qed.

Lemma cleanup_attempt_run env device_name s :
  cleanup_attempt env device_name s = (Ok tt, add_call (cleanup_call device_name) s).
Proof.
  unfold cleanup_attempt, cleanup_call, try_except, bind, subprocess_run, ret.
  by destruct (raises env (trace s) _).
Qed.

Lemma cleanup_loop env (l : list string) (s : State) :
  for_each l (cleanup_attempt env) s =
  (Ok tt, {| mounted_devices := mounted_devices s;
             trace := trace s ++ map cleanup_call l;
             log := log s; threads := threads s;
             observer_running := observer_running s |}).
Proof.
  revert s. induction l as [|device_name l IH]; intros s; simpl.
  - rewrite app_nil_r. by destruct s.
  - rewrite (bind_ok _ _ _ _ _ (cleanup_attempt_run env device_name s)).
    rewrite IH. simpl. by rewrite <- app_assoc.
Qed.

(** C9. [cleanup] never raises and runs [umount], with a timeout of ten
    seconds, once for every recorded device, whatever the earlier attempts
    did: a raising or failing attempt is ignored.  The argument of
    [umount] is the recorded device path itself, not a mount point. *)
Theorem cleanup_attempts env (s : State) :
  let r := cleanup env s in
  fst r = Ok tt ∧
  new_calls s (snd r) =
    map (λ device_name, SubprocessRun ["sudo"; "umount"; device_name] (Some 10))
        (elements (mounted_devices s)) ∧
  NoDup (new_calls s (snd r)) ∧
  mounted_devices (snd r) = mounted_devices s ∧
  new_log s (snd r) = [mkLog INFO "Cleaning up mounted devices..."].
Proof.
  assert (Hrun : cleanup env s =
                 for_each (elements (mounted_devices s)) (cleanup_attempt env)
                   (add_log (mkLog INFO "Cleaning up mounted devices...") s))
    by reflexivity.
  rewrite Hrun, cleanup_loop. simpl.
  assert (Hcalls : new_calls s
                     {| mounted_devices := mounted_devices s;
                        trace := trace s ++ map cleanup_call (elements (mounted_devices s));
                        log := log s ++ [mkLog INFO "Cleaning up mounted devices..."];
                        threads := threads s;
                        observer_running := observer_running s |}
                   = map cleanup_call (elements (mounted_devices s)))
    by (by apply new_calls_app).
  split_and!; [done | exact Hcalls | | done | by apply new_log_app].
  rewrite Hcalls. apply NoDup_fmap_2; [|apply NoDup_elements].
  intros x y Hxy. by injection Hxy.
Qed.

(** ** Mount Manager: mounting *)

Ltac run_add :=
  unfold_monitor; simpl;
  repeat (first [ rewrite mount_point_truthy | env_step ]; simpl).




(** The record only ever grows by the device path of the event. *)
Lemma handle_device_add_mounted env (d : Device) (s : State) :
  mounted_devices (snd (handle_device_add env d s)) = mounted_devices s ∨
  mounted_devices (snd (handle_device_add env d s)) =
    {[name (get_device_info d)]} ∪ mounted_devices s.
Proof.
  unfold handle_device_add. destruct (is_usb_device d); simpl; [|by left].
  run_add; auto.
Qed.

(** ** Presentation Supervisor *)

(** [launch_chromium] never raises and starts at most one viewer, on the
    path it was given. *)
Lemma launch_chromium_run env (html_path : string) (s : State) :
  let r := launch_chromium env html_path s in
  (∃ handle, fst r = Ok handle) ∧
  mounted_devices (snd r) = mounted_devices s ∧
  (List.filter is_popen (new_calls s (snd r)) = [] ∨
   ∃ chromium_cmd,
     (chromium_cmd = "chromium" ∨ chromium_cmd = "chromium-browser") ∧
     List.filter is_popen (new_calls s (snd r)) =
       [SubprocessPopen (kiosk_command chromium_cmd html_path) DISPLAY]).
Proof.
  unfold new_calls, kiosk_command.
  run_monitor; (split_and!; [eauto | reflexivity |]);
    rewrite <- ?app_assoc; simpl; rewrite drop_app_length; simpl; eauto.
Qed.

(** [launch_chromium] when [which] can be run: four calls, the last one
    the [Popen] of the viewer on the path. *)
Lemma launch_chromium_which_ok env (html_path : string) (s : State) :
  let h := trace s ++ [pkill_call; TimeSleep 1] in
  let chromium_cmd :=
    if returncode (completed env h ["which"; "chromium"]) =? 0
    then "chromium" else "chromium-browser" in
  let popen := SubprocessPopen (kiosk_command chromium_cmd html_path) DISPLAY in
  let r := launch_chromium env html_path s in
  raises env h which_call = None →
  new_calls s (snd r) = [pkill_call; TimeSleep 1; which_call; popen] ∧
  fst r = Ok (match raises env (h ++ [which_call]) popen with
              | None => Some tt
              | Some _ => None
              end).
Proof.
  intros h chromium_cmd popen r. subst r popen chromium_cmd h.
  unfold new_calls, which_call, pkill_call, kiosk_command. rewrite snoc_two.
  run_monitor; intros Hwhich; simplify_eq;
    (split; [rewrite <- !app_assoc; simpl; by rewrite drop_app_length|]);
    rewrite ?Hraises1, ?Hraises2; try reflexivity.
Qed.

(** [launch_chromium] when [which] raises: no [Popen]. *)
Lemma launch_chromium_which_raises env (html_path : string) (s : State) (f : Py.failure) :
  let r := launch_chromium env html_path s in
  raises env (trace s ++ [pkill_call; TimeSleep 1]) which_call = Some f →
  fst r = Ok None ∧
  new_calls s (snd r) = [pkill_call; TimeSleep 1; which_call] ∧
  last (log (snd r)) =
    Some (mkLog ERROR ("Error launching Chromium: " +:+ Py.str_of_failure f)).
Proof.
  intros r. subst r.
  unfold new_calls, which_call, pkill_call. rewrite snoc_two.
  run_monitor; intros Hwhich; simplify_eq;
    (split_and!; [done | rewrite <- !app_assoc; simpl; by rewrite drop_app_length
                 | by rewrite last_snoc]).
Qed.

(** The handler after a successful mount: the device path is recorded,
    then one look for the marker, then either a log record or the start
    of one thread, which may fail. *)
Lemma handle_device_add_mounted_run env (d : Device) (s : State) (res : CompletedProcess) :
  let info := get_device_info d in
  let mount_point := Py.os_path_join MOUNT_BASE (label info) in
  let marker := Py.os_path_join mount_point "index.html" in
  let h := trace s ++ [TimeSleep 2] in
  let h' := h ++ [OsMakedirs mount_point true; SubprocessRun (mount_command info) None] in
  let r := handle_device_add env d s in
  is_usb_device d = true →
  mount_result env h info = Some res →
  returncode res = 0 →
  new_calls s (snd r) =
    [TimeSleep 2; OsMakedirs mount_point true;
     SubprocessRun (mount_command info) None; OsPathExists marker]
    ++ (if path_exists env h' marker then [ThreadStart marker] else []) ∧
  (path_exists env h' marker = false →
     fst r = Ok tt ∧
     threads (snd r) = threads s ∧
     last (log (snd r)) = Some (mkLog INFO ("No index.html found in " +:+ mount_point))) ∧
  (path_exists env h' marker = true →
     match raises env (h' ++ [OsPathExists marker]) (ThreadStart marker) with
     | None => fst r = Ok tt ∧ threads (snd r) = threads s ++ [marker]
     | Some f => fst r = Raise (Py.Failure f) ∧ threads (snd r) = threads s
     end).
Proof.
  intros info mount_point marker h h' r Husb Hres Hrc.
  subst r h' h marker mount_point.
  unfold handle_device_add. rewrite Husb. clear Husb. fold info.
  clearbody info.
  unfold mount_result, mount_command, new_calls in *. revert Hres.
  rewrite !snoc_two.
  unfold thread_start.
  run_add; intros Hres; simplify_eq; try done;
    (split_and!; [rewrite <- !app_assoc; simpl; by rewrite drop_app_length | |]);
    try done.
  all: try (intros _; by rewrite ?Hraises1, ?Hraises2, ?Hraises3).
  all: intros _; rewrite last_snoc; done.
Qed.




(** ** Event Dispatcher *)

Lemma launch_chromium_observer env (html_path : string) (s : State) :
  observer_running (snd (launch_chromium env html_path s)) = observer_running s.
Proof. run_monitor; reflexivity. Qed.

(** A scheduled launch thread runs [launch_chromium] on the path that was
    queued first. *)
Lemma run_thread_oldest env (html_path : string) (rest : list string) (s : State) :
  threads s = html_path :: rest →
  run_thread env s =
  (Ok tt, snd (launch_chromium env html_path (set_threads (λ _, rest) s))).
Proof.
  intros Hq. unfold run_thread. rewrite Hq.
  by destruct (launch_chromium env html_path _).
Qed.

(** The observer calls the handler with two arguments, which the method
    does not accept: the call raises before the body runs. *)
Lemma event_handler_raises env (d : Device) (s : State) :
  event_handler env d s =
  (Raise (Py.Failure (Py.OtherError
     "USBMonitor.handle_udev_event() takes 2 positional arguments but 3 were given")),
   s).
Proof. reflexivity. Qed.

Lemma deliver_run env (d : Device) (s : State) :
  deliver env d s =
  (Ok tt, if observer_running s then set_observer false s else s).
Proof.
  unfold deliver. rewrite event_handler_raises.
  by destruct (observer_running s).
Qed.

(** No step of a schedule raises in the main thread. *)
Lemma step_total env (i : sched_item) (s : State) : fst (step env i s) = Ok tt.
Proof.
  destruct i as [d| |]; simpl.
  - by rewrite deliver_run.
  - unfold run_thread. destruct (threads s) as [|html_path rest]; [done|].
    by destruct (launch_chromium env html_path _).
  - done.
Qed.

Lemma dispatch_total env (sched : list sched_item) (s : State) :
  fst (for_each sched (step env) s) = Ok tt.
Proof.
  revert s. induction sched as [|i sched IH]; intros s; simpl; [done|].
  pose proof (step_total env i s) as Hok.
  unfold bind. destruct (step env i s) as [r s']. simpl in Hok. subst r.
  apply IH.
Qed.

(** C4 (code defect). The first event that the running observer receives
    raises in the call of the handler itself, before anything of
    [handle_udev_event] runs: nothing is caught, nothing is logged, no
    library call is made and the record stays as it is; the observer
    thread ends, and an event that follows is not handled either. *)
Theorem event_handler_kills_observer env (d d' : Device) (s : State) :
  observer_running s = true →
  (∃ f, event_handler env d s = (Raise (Py.Failure f), s)) ∧
  deliver env d s = (Ok tt, set_observer false s) ∧
  for_each [Deliver d; Deliver d'] (step env) s = (Ok tt, set_observer false s).
Proof.
  intros Hrun. split_and!.
  - eexists. apply event_handler_raises.
  - by rewrite deliver_run, Hrun.
  - simpl. unfold bind. rewrite deliver_run, Hrun. by rewrite deliver_run.
Qed.

Lemma event_handler_kills_observer_witness :
  let s := Sample.sdb1_mounted in
  observer_running s = true ∧
  for_each [Deliver Sample.sdb1_add; Deliver Sample.sdb1_remove]
    (step Sample.env_ok) s = (Ok tt, set_observer false s).
Proof.
  intros s.
  assert (H : observer_running s = true) by reflexivity.
  refine (conj H _).
  exact (proj2 (proj2 (event_handler_kills_observer Sample.env_ok Sample.sdb1_add
                         Sample.sdb1_remove s H))).
Defined.

(** Called directly with a device, [handle_udev_event] lets the exception
    of a thread that cannot be started escape: the device path is already
    recorded then. *)
Lemma handle_udev_event_thread_error :
  let r := handle_udev_event Sample2.env_no_threads Sample.sdb1_add initial_state in
  fst r = Raise (Py.Failure (Py.OtherError "can't start new thread")) ∧
  elements (mounted_devices (snd r)) = ["/dev/sdb1"] ∧
  threads (snd r) = [].
Proof. split_and!; vm_compute; reflexivity. Qed.

(** ** Process lifetime *)

Local Arguments cleanup : simpl never.
Local Arguments main_loop : simpl never.
Local Arguments start_monitoring : simpl never.

Lemma cleanup_run env (s : State) :
  cleanup env s =
  (Ok tt, {| mounted_devices := mounted_devices s;
             trace := trace s ++ map cleanup_call (elements (mounted_devices s));
             log := log s ++ [mkLog INFO "Cleaning up mounted devices..."];
             threads := threads s;
             observer_running := observer_running s |}).
Proof.
  assert (Hrun : cleanup env s =
                 for_each (elements (mounted_devices s)) (cleanup_attempt env)
                   (add_log (mkLog INFO "Cleaning up mounted devices...") s))
    by reflexivity.
  by rewrite Hrun, cleanup_loop.
Qed.

Lemma main_loop_run env (sched : list sched_item) (s : State) :
  main_loop env sched s =
  (Raise Py.KeyboardInterrupt, snd (for_each sched (step env) s)).
Proof.
  unfold main_loop, bind. pose proof (dispatch_total env sched s) as Hok.
  destruct (for_each sched (step env) s) as [r s']. simpl in *. by subst r.
Qed.

(** [start_monitoring] returns normally when the observer cannot be
    started: the error is logged and [cleanup] runs. *)
Lemma start_monitoring_observer_fails env (sched : list sched_item) (s : State) f :
  first_failure env (trace s) observer_calls = Some f →
  ∃ s', start_monitoring env sched s = (Ok tt, s') ∧
        mkLog ERROR ("Error in USB monitor: " +:+ Py.str_of_failure f) ∈ log s' ∧
        mounted_devices s' = mounted_devices s.
Proof.
  unfold observer_calls, start_monitoring, try_finally, observer_start.
  unfold bind, lib_call, logger_info, logger_error, modify. simpl.
  destruct (raises env (trace s) UdevMonitorObserver) as [f0|] eqn:H0.
  - intros [= ->]. rewrite cleanup_run. simpl. eexists. split; [reflexivity|].
    simpl. split; [|done]. rewrite !elem_of_app, !list_elem_of_singleton. auto.
  - simpl.
    destruct (raises env (trace s ++ [UdevMonitorObserver]) ObserverStart)
      as [f1|] eqn:H1; [|done].
    intros [= ->]. rewrite cleanup_run. simpl. eexists. split; [reflexivity|].
    simpl. split; [|done]. rewrite !elem_of_app, !list_elem_of_singleton. auto.
Qed.

(** It also returns normally after the interrupt, when the observer can
    be stopped. *)
Lemma start_monitoring_interrupted env (sched : list sched_item) (s : State) :
  first_failure env (trace s) observer_calls = None →
  (∀ h, raises env h ObserverStop = None) →
  ∃ s', start_monitoring env sched s = (Ok tt, s').
Proof.
  intros Hstart Hstop. revert Hstart.
  unfold observer_calls, start_monitoring, try_finally, observer_start, observer_stop.
  unfold bind, lib_call, logger_info, logger_error, modify. simpl.
  destruct (raises env (trace s) UdevMonitorObserver) as [f0|] eqn:H0; [done|].
  simpl.
  destruct (raises env (trace s ++ [UdevMonitorObserver]) ObserverStart)
    as [f1|] eqn:H1; [done|].
  intros _. simpl. rewrite main_loop_run, Hstop, cleanup_run. eauto.
Qed.

(** The constructor either raises the first exception of its calls or
    leaves an empty record behind. *)
Lemma USBMonitor_init_run env (s : State) :
  match first_failure env (trace s) init_calls with
  | Some f =>
      ∃ s', USBMonitor_init env s = (Raise (Py.Failure f), s') ∧
            log s' = log s ∧
            (mounted_devices s' = mounted_devices s ∨ mounted_devices s' = ∅)
  | None =>
      USBMonitor_init env s =
      (Ok tt, {| mounted_devices := ∅; trace := trace s ++ init_calls;
                 log := log s; threads := threads s;
                 observer_running := observer_running s |})
  end.
Proof.
  unfold init_calls, USBMonitor_init, os_makedirs.
  unfold bind, lib_call, modify. simpl.
  repeat (env_step; simpl; eauto).
  unfold add_call, set_mounted. simpl. by rewrite <- !app_assoc.
Qed.

Lemma main_unfold env (sched : list sched_item) :
  main env sched initial_state =
  try_except
    (USBMonitor_init env;; start_monitoring env sched)
    (λ e, logger_error ("Fatal error: " +:+ Py.str_of_failure e);; sys_exit 1)
    (add_log (mkLog INFO "Starting Casette USB Monitor Service") initial_state).
Proof. reflexivity. Qed.

Lemma main_init_fails env (sched : list sched_item) (f : Py.failure) :
  first_failure env [] init_calls = Some f →
  ∃ s', main env sched initial_state = (Raise (Py.SystemExit 1), s') ∧
        last (log s') = Some (mkLog ERROR ("Fatal error: " +:+ Py.str_of_failure f)) ∧
        mounted_devices s' = ∅.
Proof.
  intros Hf. rewrite main_unfold.
  set (s0 := add_log _ initial_state).
  pose proof (USBMonitor_init_run env s0) as Hinit.
  change (trace s0) with (@nil call) in Hinit. rewrite Hf in Hinit.
  destruct Hinit as (s' & Hrun & Hlog & Hm).
  unfold try_except, bind at 1. rewrite Hrun.
  unfold bind, logger_error, sys_exit, raise, modify.
  eexists. split; [reflexivity|]. simpl. rewrite last_snoc. split; [done|].
  by destruct Hm as [-> | ->].
Qed.

Lemma main_init_ok env (sched : list sched_item) :
  first_failure env [] init_calls = None →
  ∃ s0, trace s0 = init_calls ∧ mounted_devices s0 = ∅ ∧
        main env sched initial_state =
        try_except (start_monitoring env sched)
          (λ e, logger_error ("Fatal error: " +:+ Py.str_of_failure e);; sys_exit 1)
          s0.
Proof.
  intros Hf. rewrite main_unfold.
  set (s0 := add_log _ initial_state).
  pose proof (USBMonitor_init_run env s0) as Hinit.
  change (trace s0) with (@nil call) in Hinit. rewrite Hf in Hinit.
  eexists. split_and!; [| |unfold try_except, bind at 1; rewrite Hinit; reflexivity];
    reflexivity.
Qed.

(** C1 (amended). When constructing the monitor fails, be it one of the
    udev calls that open the subscription or the creation of the mount
    base directory, [main] logs a fatal error and the process exits with
    status 1, with nothing recorded as mounted.  When the observer cannot
    be started afterwards, the error is logged and the process ends with
    status 0.  Nothing that happens while events are handled makes the
    status non-zero: when the construction succeeds and the observer can
    be stopped, the status is 0 for every schedule of events and every
    behaviour of the other calls. *)
Theorem main_exit_status env (sched : list sched_item) :
  let r := main env sched initial_state in
  (∀ f, first_failure env [] init_calls = Some f →
        exit_status (fst r) = 1 ∧
        last (log (snd r)) =
          Some (mkLog ERROR ("Fatal error: " +:+ Py.str_of_failure f)) ∧
        mounted_devices (snd r) = ∅) ∧
  (∀ f, first_failure env [] init_calls = None →
        first_failure env init_calls observer_calls = Some f →
        exit_status (fst r) = 0 ∧
        mkLog ERROR ("Error in USB monitor: " +:+ Py.str_of_failure f) ∈ log (snd r)) ∧
  (first_failure env [] init_calls = None →
   (∀ h, raises env h ObserverStop = None) →
   exit_status (fst r) = 0).
Proof.
  intros r. subst r. split_and!.
  - intros f Hf. by destruct (main_init_fails env sched f Hf) as (s' & -> & Hlog & Hm).
  - intros f Hnone Hobs.
    destruct (main_init_ok env sched Hnone) as (s0 & Htrace & _ & ->).
    rewrite <- Htrace in Hobs.
    destruct (start_monitoring_observer_fails env sched s0 f Hobs) as (s' & Hrun & Hlog & _).
    unfold try_except. by rewrite Hrun.
  - intros Hnone Hstop.
    destruct (main_init_ok env sched Hnone) as (s0 & Htrace & _ & ->).
    unfold try_except.
    destruct (first_failure env (trace s0) observer_calls) as [f|] eqn:Hobs.
    + by destruct (start_monitoring_observer_fails env sched s0 f Hobs) as (s' & -> & _).
    + by destruct (start_monitoring_interrupted env sched s0 Hobs Hstop) as (s' & ->).
Qed.

Lemma main_exit_status_witness :
  let sched := [Deliver Sample.sdb1_add; Tick; RunThread; Deliver Sample.sdb1_remove] in
  let noisy := Sample.env_sudo_fails "mount" "mount: wrong fs type." in
  first_failure Sample.env_makedirs_fails [] init_calls
    = Some (Py.OSError "Permission denied") ∧
  exit_status (fst (main Sample.env_makedirs_fails sched initial_state)) = 1 ∧
  first_failure Sample.env_observer_fails [] init_calls = None ∧
  first_failure Sample.env_observer_fails init_calls observer_calls
    = Some (Py.OtherError "can't start new thread") ∧
  exit_status (fst (main Sample.env_observer_fails sched initial_state)) = 0 ∧
  first_failure noisy [] init_calls = None ∧
  (∀ h, raises noisy h ObserverStop = None) ∧
  exit_status (fst (main noisy sched initial_state)) = 0.
Proof.
  intros sched noisy.
  assert (H1 : first_failure Sample.env_makedirs_fails [] init_calls
               = Some (Py.OSError "Permission denied")) by reflexivity.
  assert (H2 : first_failure Sample.env_observer_fails [] init_calls = None)
    by reflexivity.
  assert (H3 : first_failure Sample.env_observer_fails init_calls observer_calls
               = Some (Py.OtherError "can't start new thread")) by reflexivity.
  assert (H4 : first_failure noisy [] init_calls = None) by reflexivity.
  assert (H5 : ∀ h, raises noisy h ObserverStop = None) by reflexivity.
  pose proof (main_exit_status Sample.env_makedirs_fails sched) as (Hfatal & _ & _).
  pose proof (main_exit_status Sample.env_observer_fails sched) as (_ & Hobserver & _).
  pose proof (main_exit_status noisy sched) as (_ & _ & Hevents).
  refine (conj H1 (conj _ (conj H2 (conj H3 (conj _ (conj H4 (conj H5 _))))))).
  - exact (proj1 (Hfatal _ H1)).
  - exact (proj1 (Hobserver _ H2 H3)).
  - exact (Hevents H4 H5).
Defined.

(** C1, as stated, fails in both directions: when [observer.start()]
    raises, the error is logged by [start_monitoring] and the process ends
    with status 0; and when only [os.makedirs] of the mount base raises,
    no call of the subscription having failed, the process exits with 1. *)
Lemma main_exit_counterexample :
  (is_subscription_call ObserverStart = true ∧
   raises Sample.env_observer_fails (init_calls ++ [UdevMonitorObserver]) ObserverStart
     = Some (Py.OtherError "can't start new thread") ∧
   exit_status (fst (main Sample.env_observer_fails [] initial_state)) = 0 ∧
   log (snd (main Sample.env_observer_fails [] initial_state)) =
     [mkLog INFO "Starting Casette USB Monitor Service";
      mkLog INFO "Starting USB device monitoring...";
      mkLog ERROR "Error in USB monitor: can't start new thread";
      mkLog INFO "Cleaning up mounted devices..."]) ∧
  ((∀ h c, is_subscription_call c = true →
           raises Sample.env_makedirs_fails h c = None) ∧
   exit_status (fst (main Sample.env_makedirs_fails [] initial_state)) = 1).
Proof.
  split; [split_and!; vm_compute; reflexivity|].
  split; [|vm_compute; reflexivity].
  intros h c. by destruct c.
Qed.

(** * Further properties *)

(** ** Paths and labels *)

Lemma str_join_cons sep x y l :
  str_join sep (x :: y :: l) = x +:+ sep +:+ str_join sep (y :: l).
Proof. reflexivity. Qed.

Lemma split_components_no_sep (sep : ascii) (s : string) :
  Forall (λ c, contains_char sep c = false) (Py.split sep s).
Proof.
  induction s as [|a s IH]; simpl.
  - by constructor.
  - destruct (Ascii.eqb a sep) eqn:Ha.
    + by constructor.
    + destruct (Py.split sep s) as [|h t]; [by repeat constructor; simpl; rewrite Ha|].
      inversion_clear IH as [|? ? Hh Ht]. constructor; [|done].
      simpl. by rewrite Ha.
Qed.

Lemma split_join (sep : ascii) (s : string) :
  str_join (String sep "") (Py.split sep s) = s.
Proof.
  induction s as [|a s IH]; simpl; [done|].
  pose proof (split_nonempty sep s) as Hne.
  destruct (Ascii.eqb a sep) eqn:Ha.
  - apply Ascii.eqb_eq in Ha as ->.
    destruct (Py.split sep s) as [|h t]; [done|].
    rewrite str_join_cons, IH. reflexivity.
  - destruct (Py.split sep s) as [|h t]; [done|].
    destruct t as [|h' t].
    + simpl in *. by rewrite IH.
    + rewrite str_join_cons. rewrite str_join_cons in IH.
      change (String a (h +:+ String sep "" +:+ str_join (String sep "") (h' :: t))
              = String a s).
      by rewrite IH.
Qed.

(** [str.split] on a character loses nothing: joining the pieces with the
    separator gives the string back, and no piece contains the
    separator. *)
Theorem split_join_roundtrip (sep : ascii) (s : string) :
  str_join (String sep "") (Py.split sep s) = s ∧
  Forall (λ c, contains_char sep c = false) (Py.split sep s).
Proof. split; [apply split_join | apply split_components_no_sep]. Qed.

Lemma last_item_in (l : list string) : l ≠ [] → Py.last_item l ∈ l.
Proof.
  unfold Py.last_item. induction l as [|x l IH]; [done|]. intros _.
  destruct l as [|y l]; [by left|].
  right. by apply IH.
Qed.

Lemma basename_no_sep (p : string) : contains_char "/" (basename p) = false.
Proof.
  rewrite <- split_last_basename.
  pose proof (split_components_no_sep "/" p) as Hall.
  rewrite Forall_forall in Hall. apply Hall.
  apply last_item_in, split_nonempty.
Qed.

Lemma contains_char_app (c : ascii) (s t : string) :
  contains_char c (s +:+ t) = (contains_char c s || contains_char c t)%bool.
Proof.
  induction s as [|a s IH]; [done|].
  change (contains_char c (String a (s +:+ t)) =
          (contains_char c (String a s) || contains_char c t)%bool).
  simpl. rewrite IH. by destruct (Ascii.eqb a c).
Qed.

Lemma startswith_sep_contains (s : string) :
  Py.startswith_sep s = true → contains_char "/" s = true.
Proof. destruct s as [|a s]; simpl; [done|]. by intros ->. Qed.

Lemma endswith_sep_contains (s : string) :
  Py.endswith_sep s = true → contains_char "/" s = true.
Proof.
  induction s as [|a s IH]; [done|]. simpl.
  destruct s as [|b s]; [by intros ->|].
  intros H. rewrite (IH H). by destruct (Ascii.eqb a "/").
Qed.

Lemma endswith_sep_app (s t : string) :
  t ≠ "" → Py.endswith_sep (s +:+ t) = Py.endswith_sep t.
Proof.
  intros Ht. induction s as [|a s IH]; [done|].
  change (Py.endswith_sep (String a (s +:+ t)) = Py.endswith_sep t).
  simpl. destruct (s +:+ t) as [|b u] eqn:Hst; [|done].
  destruct s; [|done]. by destruct Ht.
Qed.

Lemma string_app_assoc (s t u : string) : (s +:+ t) +:+ u = s +:+ t +:+ u.
Proof.
  induction s as [|a s IH]; [done|].
  change (String a ((s +:+ t) +:+ u) = String a (s +:+ t +:+ u)). by rewrite IH.
Qed.

(** A label without "/" is mounted directly below the base, and the marker
    is looked up directly below the mount point. *)
Lemma plain_label_paths (l : string) :
  l ≠ "" → contains_char "/" l = false →
  Py.os_path_join MOUNT_BASE l = "/mnt/casette/" +:+ l ∧
  Py.os_path_join (Py.os_path_join MOUNT_BASE l) "index.html"
    = "/mnt/casette/" +:+ l +:+ "/index.html".
Proof.
  intros Hne Hl.
  assert (Hstart : Py.startswith_sep l = false).
  { destruct (Py.startswith_sep l) eqn:H; [|done].
    apply startswith_sep_contains in H. congruence. }
  assert (Hend : Py.endswith_sep l = false).
  { destruct (Py.endswith_sep l) eqn:H; [|done].
    apply endswith_sep_contains in H. congruence. }
  rewrite (mount_point_relative l Hstart). split; [done|].
  rewrite os_path_join_relative; [| |by rewrite endswith_sep_app|done].
  - by rewrite string_app_assoc.
  - intros H. by apply (f_equal String.length) in H.
Qed.

(** A device without a usable [ID_FS_LABEL] is always mounted directly
    below [MOUNT_BASE]: its label has no "/", its mount point is
    ["/mnt/casette/usb_"] followed by the last component of the device
    path, and the marker is [index.html] directly inside it. *)
Theorem default_mount_point (d : Device) :
  device_get d "ID_FS_LABEL" "" = "" →
  let info := get_device_info d in
  let mount_point := Py.os_path_join MOUNT_BASE (label info) in
  contains_char "/" (label info) = false ∧
  mount_point = "/mnt/casette/usb_" +:+ basename (name info) ∧
  Py.os_path_join mount_point "index.html"
    = "/mnt/casette/usb_" +:+ basename (name info) +:+ "/index.html".
Proof.
  intros Hlabel info mount_point. subst mount_point.
  assert (Hl : label info = "usb_" +:+ basename (name info)).
  { subst info. unfold get_device_info; simpl.
    by rewrite Hlabel, split_last_basename. }
  assert (Hno : contains_char "/" (label info) = false).
  { rewrite Hl, contains_char_app, basename_no_sep. reflexivity. }
  destruct (plain_label_paths (label info)) as [Hmp Hmarker]; [|done|].
  { rewrite Hl. apply label_nonempty. }
  split; [exact Hno|]. rewrite Hmarker, Hmp, Hl.
  split.
  - by rewrite <- string_app_assoc.
  - rewrite (string_app_assoc "usb_"). by rewrite <- (string_app_assoc "/mnt/casette/").
Qed.

Lemma default_mount_point_witness :
  device_get Sample.sdb1_add "ID_FS_LABEL" "" = "" ∧
  Py.os_path_join MOUNT_BASE (label (get_device_info Sample.sdb1_add))
    = "/mnt/casette/usb_sdb1".
Proof.
  assert (H : device_get Sample.sdb1_add "ID_FS_LABEL" "" = "")
    by (vm_compute; reflexivity).
  refine (conj H _).
  exact (proj1 (proj2 (default_mount_point Sample.sdb1_add H))).
Defined.

(** ** Device Classifier, continued *)

Lemma usb_walk_readable (d : Device) :
  readable d = true → usb_walk d = Ok (usb_in_chain d).
Proof.
  revert d. fix IH 1. intros [a props subsys up]. simpl.
  destruct (device_truthy _); simpl; [|discriminate].
  destruct subsys as [f|subsys]; [discriminate|].
  unfold usb_in_chain. simpl. unfold in_usb_subsystem at 1. simpl.
  destruct (String.eqb subsys "usb"); [done|]. simpl.
  destruct up as [|f|p]; [done|discriminate|].
  intros H. apply (IH p H).
Qed.

(** When every device along the chain has at least one property and
    every read along the chain succeeds, [is_usb_device] is exact: it
    answers [True] if and only if the device or one of its ancestors is
    in the USB subsystem. *)
Theorem is_usb_device_exact (d : Device) :
  readable d = true → is_usb_device d = usb_in_chain d.
Proof. intros H. unfold is_usb_device. by rewrite usb_walk_readable. Qed.

Lemma is_usb_device_exact_witness :
  readable Sample.sdb1_add = true ∧ readable Sample.sda1_add = true ∧
  is_usb_device Sample.sdb1_add = true ∧ is_usb_device Sample.sda1_add = false.
Proof.
  assert (H1 : readable Sample.sdb1_add = true) by reflexivity.
  assert (H2 : readable Sample.sda1_add = true) by reflexivity.
  refine (conj H1 (conj H2 (conj _ _))).
  - exact (is_usb_device_exact Sample.sdb1_add H1).
  - exact (is_usb_device_exact Sample.sda1_add H2).
Defined.

(** A device that lacks all four properties gets an empty device path, the
    label ["usb_"], an empty UUID and the filesystem ["unknown"]. *)
Theorem get_device_info_missing_keys (d : Device) :
  properties d !! "DEVNAME" = None →
  properties d !! "ID_FS_LABEL" = None →
  properties d !! "ID_FS_UUID" = None →
  properties d !! "ID_FS_TYPE" = None →
  get_device_info d =
  {| name := ""; label := "usb_"; uuid := ""; filesystem := "unknown" |}.
Proof.
  intros H1 H2 H3 H4. unfold get_device_info, device_get.
  by rewrite H1, H2, H3, H4.
Qed.

Lemma get_device_info_missing_keys_witness :
  properties Sample2.bare_add !! "DEVNAME" = None ∧
  get_device_info Sample2.bare_add =
  {| name := ""; label := "usb_"; uuid := ""; filesystem := "unknown" |}.
Proof.
  assert (H : ∀ k, properties Sample2.bare_add !! k = None)
    by (intros k; apply lookup_empty).
  refine (conj (H _) _).
  exact (get_device_info_missing_keys Sample2.bare_add (H _) (H _) (H _) (H _)).
Defined.

(** ** Presentation Supervisor, continued *)

(** [kill_chromium] never raises.  It runs [pkill -f chromium] once and
    logs one record: a warning when the call raised, and otherwise the
    information that the processes were killed, whatever the exit status
    of [pkill] was.  It leaves the record of mounted devices alone. *)
Theorem kill_chromium_outcome env (s : State) :
  let r := kill_chromium env s in
  fst r = Ok tt ∧
  new_calls s (snd r) = [pkill_call] ∧
  new_log s (snd r) =
    [match raises env (trace s) pkill_call with
     | None => mkLog INFO "Killed existing Chromium processes"
     | Some f =>
         mkLog WARNING ("Could not kill Chromium processes: " +:+ Py.str_of_failure f)
     end] ∧
  mounted_devices (snd r) = mounted_devices s.
Proof.
  unfold new_calls, new_log, pkill_call.
  run_monitor; split_and!; try reflexivity; by rewrite drop_app_length.
Qed.

(** When [which] can be run, [launch_chromium] makes exactly four calls:
    [pkill], a sleep of one second, [which chromium] and one [Popen] with
    [DISPLAY] set, of [chromium] when [which] exited with 0 and of
    [chromium-browser] otherwise, in kiosk mode on [file://] followed by
    the path.  It returns a process exactly when [Popen] did not raise. *)
Theorem launch_chromium_command env (html_path : string) (s : State) :
  let h := trace s ++ [pkill_call; TimeSleep 1] in
  let chromium_cmd :=
    if returncode (completed env h ["which"; "chromium"]) =? 0
    then "chromium" else "chromium-browser" in
  let popen := SubprocessPopen (kiosk_command chromium_cmd html_path) DISPLAY in
  let r := launch_chromium env html_path s in
  raises env h which_call = None →
  new_calls s (snd r) = [pkill_call; TimeSleep 1; which_call; popen] ∧
  fst r = Ok (match raises env (h ++ [which_call]) popen with
              | None => Some tt
              | Some _ => None
              end).
Proof. apply launch_chromium_which_ok. Qed.

Lemma launch_chromium_command_witness :
  let env := Sample2.env_chromium_browser in
  let p := "/mnt/casette/usb_sdb1/index.html" in
  raises env (trace initial_state ++ [pkill_call; TimeSleep 1]) which_call = None ∧
  new_calls initial_state (snd (launch_chromium env p initial_state)) =
    [pkill_call; TimeSleep 1; which_call;
     SubprocessPopen (kiosk_command "chromium-browser" p) DISPLAY] ∧
  fst (launch_chromium env p initial_state) = Ok (Some tt).
Proof.
  intros env p.
  assert (H : raises env (trace initial_state ++ [pkill_call; TimeSleep 1]) which_call
              = None) by reflexivity.
  refine (conj H _).
  exact (launch_chromium_command env p initial_state H).
Defined.

(** When [which] itself raises, no viewer is started: [launch_chromium]
    makes no [Popen], logs the error and returns [None]. *)
Theorem launch_chromium_without_which env (html_path : string) (s : State) (f : Py.failure) :
  let r := launch_chromium env html_path s in
  raises env (trace s ++ [pkill_call; TimeSleep 1]) which_call = Some f →
  fst r = Ok None ∧
  new_calls s (snd r) = [pkill_call; TimeSleep 1; which_call] ∧
  last (log (snd r)) =
    Some (mkLog ERROR ("Error launching Chromium: " +:+ Py.str_of_failure f)).
Proof. apply launch_chromium_which_raises. Qed.

Lemma launch_chromium_without_which_witness :
  let env := Sample2.env_no_which in
  let p := "/mnt/casette/usb_sdb1/index.html" in
  raises env (trace initial_state ++ [pkill_call; TimeSleep 1]) which_call
    = Some (Py.OSError "No such file or directory: 'which'") ∧
  fst (launch_chromium env p initial_state) = Ok None ∧
  List.filter is_popen (new_calls initial_state (snd (launch_chromium env p initial_state)))
    = [].
Proof.
  intros env p.
  assert (H : raises env (trace initial_state ++ [pkill_call; TimeSleep 1]) which_call
              = Some (Py.OSError "No such file or directory: 'which'")) by reflexivity.
  pose proof (launch_chromium_without_which env p initial_state _ H) as (Hnone & Hcalls & _).
  refine (conj H (conj Hnone _)).
  rewrite Hcalls. reflexivity.
Defined.

(** ** Mount Manager, continued *)

(** When [os.makedirs] raises, the mount utility is not run at all:
    [mount_device] logs the error and returns [None]. *)
Theorem mount_device_makedirs_raises env (info : device_info) (s : State) (f : Py.failure) :
  let mount_point := Py.os_path_join MOUNT_BASE (label info) in
  raises env (trace s) (OsMakedirs mount_point true) = Some f →
  mount_device env info s =
  (Ok None,
   add_log (mkLog ERROR ("Error mounting device " +:+ name info +:+ ": "
                         +:+ Py.str_of_failure f))
     (add_call (OsMakedirs mount_point true) s)).
Proof.
  intros mount_point. subst mount_point.
  run_add; intros Hf; by simplify_eq.
Qed.

Lemma mount_device_makedirs_raises_witness :
  raises Sample.env_makedirs_fails (trace initial_state)
    (OsMakedirs (Py.os_path_join MOUNT_BASE (label Sample.sdb1_info)) true)
    = Some (Py.OSError "Permission denied") ∧
  List.filter is_mount
    (new_calls initial_state
       (snd (mount_device Sample.env_makedirs_fails Sample.sdb1_info initial_state)))
    = [].
Proof.
  assert (H : raises Sample.env_makedirs_fails (trace initial_state)
                (OsMakedirs (Py.os_path_join MOUNT_BASE (label Sample.sdb1_info)) true)
              = Some (Py.OSError "Permission denied")) by reflexivity.
  refine (conj H _).
  rewrite (mount_device_makedirs_raises Sample.env_makedirs_fails Sample.sdb1_info
             initial_state _ H).
  reflexivity.
Defined.

(** When the mount does not succeed, because a call raised or because the
    utility exited with a non-zero status, [handle_device_add] stops
    there: it does not look for the marker, starts no thread and records
    nothing. *)
Theorem handle_device_add_mount_failed env (d : Device) (s : State) :
  let info := get_device_info d in
  let h := trace s ++ [TimeSleep 2] in
  let r := handle_device_add env d s in
  is_usb_device d = true →
  (∃ f, mount_failure env h info = Some f) ∨
  (∃ res, mount_result env h info = Some res ∧ returncode res ≠ 0) →
  fst r = Ok tt ∧
  List.filter is_path_exists (new_calls s (snd r)) = [] ∧
  threads (snd r) = threads s ∧
  mounted_devices (snd r) = mounted_devices s.
Proof.
  intros info h r Husb Hfail. subst r h.
  unfold handle_device_add. rewrite Husb. clear Husb. fold info. clearbody info.
  unfold mount_failure, mount_result, mount_command, new_calls in *.
  revert Hfail. simpl.
  run_add; intros [[f Hf] | (res & Hres & Hrc)]; simplify_eq; try done;
    (split_and!; [done | | done | done]);
    rewrite <- ?app_assoc; simpl; by rewrite drop_app_length.
Qed.

Lemma handle_device_add_mount_failed_witness :
  let env := Sample.env_sudo_fails "mount" "mount: wrong fs type." in
  let r := handle_device_add env Sample.sdb1_add initial_state in
  is_usb_device Sample.sdb1_add = true ∧
  (∃ res, mount_result env (trace initial_state ++ [TimeSleep 2])
            (get_device_info Sample.sdb1_add) = Some res ∧ returncode res ≠ 0) ∧
  threads (snd r) = [] ∧
  mounted_devices (snd r) = ∅.
Proof.
  intros env r.
  assert (H1 : is_usb_device Sample.sdb1_add = true) by reflexivity.
  assert (H2 : ∃ res, mount_result env (trace initial_state ++ [TimeSleep 2])
                        (get_device_info Sample.sdb1_add) = Some res ∧
                      returncode res ≠ 0).
  { exists (mkCompleted 32 "mount: wrong fs type."). split; [vm_compute; reflexivity|].
    discriminate. }
  pose proof (handle_device_add_mount_failed env Sample.sdb1_add initial_state H1
                (or_intror H2)) as (_ & _ & Hthreads & Hmounted).
  exact (conj H1 (conj H2 (conj Hthreads Hmounted))).
Defined.

(** After [umount] has run: the mount point directory is removed exactly
    when the utility exited with 0.  A failing [rmdir] never escapes: an
    [OSError] becomes a warning, any other exception an error record. *)
Theorem unmount_device_rmdir env (info : device_info) (s : State) (res : CompletedProcess) :
  let mount_point := Py.os_path_join MOUNT_BASE (label info) in
  let umount := SubprocessRun (umount_command info) None in
  let h := trace s ++ [pkill_call; TimeSleep 2; umount] in
  let r := unmount_device env info s in
  umount_result env (trace s) info = Some res →
  fst r = Ok tt ∧
  (returncode res ≠ 0 →
     new_calls s (snd r) = [pkill_call; TimeSleep 2; umount]) ∧
  (returncode res = 0 →
     new_calls s (snd r) = [pkill_call; TimeSleep 2; umount; OsRmdir mount_point] ∧
     last (log (snd r)) =
       Some (match raises env h (OsRmdir mount_point) with
             | None => mkLog INFO ("Successfully unmounted " +:+ mount_point)
             | Some (Py.OSError _) =>
                 mkLog WARNING ("Could not remove mount point directory " +:+ mount_point)
             | Some (Py.OtherError msg) =>
                 mkLog ERROR ("Error unmounting device: " +:+ msg)
             end)).
Proof.
  intros mount_point umount h r. subst r h umount mount_point.
  unfold umount_result, umount_command, new_calls, pkill_call.
  rewrite snoc_two.
  change [SubprocessRun ["pkill"; "-f"; "chromium"] None; TimeSleep 2;
          SubprocessRun ["sudo"; "umount"; Py.os_path_join MOUNT_BASE (label info)] None]
    with ([SubprocessRun ["pkill"; "-f"; "chromium"] None; TimeSleep 2] ++
          [SubprocessRun ["sudo"; "umount"; Py.os_path_join MOUNT_BASE (label info)] None]).
  rewrite (app_assoc (trace s)), snoc_two.
  run_monitor; intros Hres; simplify_eq;
    (split_and!; [done | intros Hrc | intros Hrc; split]); try done;
    first [ by rewrite last_snoc
          | rewrite <- ?app_assoc; simpl; by rewrite drop_app_length ].
Qed.

Lemma unmount_device_rmdir_witness :
  let env := Sample2.env_rmdir_fails in
  let r := unmount_device env Sample.sdb1_info Sample.sdb1_mounted in
  umount_result env (trace Sample.sdb1_mounted) Sample.sdb1_info
    = Some (mkCompleted 0 "") ∧
  fst r = Ok tt ∧
  last (log (snd r)) =
    Some (mkLog WARNING "Could not remove mount point directory /mnt/casette/usb_sdb1").
Proof.
  intros env r.
  assert (H : umount_result env (trace Sample.sdb1_mounted) Sample.sdb1_info
              = Some (mkCompleted 0 "")) by reflexivity.
  pose proof (unmount_device_rmdir env Sample.sdb1_info Sample.sdb1_mounted _ H)
    as (Hok & _ & Hzero).
  refine (conj H (conj Hok _)).
  exact (proj2 (Hzero eq_refl)).
Defined.

(** ** Event Dispatcher, continued *)

(** An event is ignored altogether, with no call, no log record and no
    change of the record, when its device is not classified as USB or when
    its action is neither "add" nor "remove". *)
Theorem handle_udev_event_ignored env (d : Device) (s : State) :
  is_usb_device d = false ∨
  (action_is d "add" = false ∧ action_is d "remove" = false) →
  handle_udev_event env d s = (Ok tt, s).
Proof.
  unfold handle_udev_event. intros [Husb | [Hadd Hremove]].
  - destruct (action_is d "add"); [unfold handle_device_add; by rewrite Husb|].
    destruct (action_is d "remove"); [|done].
    by apply handle_device_remove_not_usb.
  - by rewrite Hadd, Hremove.
Qed.

Lemma handle_udev_event_ignored_witness :
  let changed := Sample.usb_partition "change" "/dev/sdb1" in
  (is_usb_device Sample.sda1_add = false ∨
   (action_is Sample.sda1_add "add" = false ∧
    action_is Sample.sda1_add "remove" = false)) ∧
  (is_usb_device changed = false ∨
   (action_is changed "add" = false ∧ action_is changed "remove" = false)) ∧
  handle_udev_event Sample.env_ok Sample.sda1_add Sample.sdb1_mounted
    = (Ok tt, Sample.sdb1_mounted) ∧
  handle_udev_event Sample.env_ok changed Sample.sdb1_mounted
    = (Ok tt, Sample.sdb1_mounted).
Proof.
  intros changed.
  assert (H1 : is_usb_device Sample.sda1_add = false ∨
               (action_is Sample.sda1_add "add" = false ∧
                action_is Sample.sda1_add "remove" = false)) by (by left).
  assert (H2 : is_usb_device changed = false ∨
               (action_is changed "add" = false ∧ action_is changed "remove" = false))
    by (by right).
  refine (conj H1 (conj H2 (conj _ _))).
  - exact (handle_udev_event_ignored Sample.env_ok Sample.sda1_add Sample.sdb1_mounted H1).
  - exact (handle_udev_event_ignored Sample.env_ok changed Sample.sdb1_mounted H2).
Defined.

(** [handle_device_add] has no guard against a device that is already
    recorded: what it returns, calls, logs and starts does not depend on
    the record, so a repeated "add" runs [mount] again.  The record is a
    set: repeating the event for a recorded device leaves it as it is. *)
Theorem handle_device_add_unguarded env (d : Device) (s : State) (m : gset string) :
  let r := handle_device_add env d s in
  let r' := handle_device_add env d (set_mounted (λ _, m) s) in
  fst r' = fst r ∧
  trace (snd r') = trace (snd r) ∧
  log (snd r') = log (snd r) ∧
  threads (snd r') = threads (snd r) ∧
  (name (get_device_info d) ∈ mounted_devices s →
   mounted_devices (snd r) = mounted_devices s).
Proof.
  intros r r'. subst r r'. split_and!.
  1-4: unfold handle_device_add; destruct (is_usb_device d); simpl; [|done];
       run_add; reflexivity.
  intros Hin. destruct (handle_device_add_mounted env d s) as [-> | ->]; [done|].
  apply set_eq. intros x. rewrite elem_of_union, elem_of_singleton.
  split; [intros [-> | ?]; done | auto].
Qed.

Lemma handle_device_add_unguarded_witness :
  name (get_device_info Sample.sdb1_add) ∈ mounted_devices Sample.sdb1_mounted ∧
  mounted_devices (snd (handle_device_add Sample.env_ok Sample.sdb1_add
                          Sample.sdb1_mounted))
    = mounted_devices Sample.sdb1_mounted ∧
  List.filter is_mount
    (trace (snd (handle_device_add Sample.env_ok Sample.sdb1_add Sample.sdb1_mounted)))
    = [SubprocessRun ["sudo"; "mount"; "/dev/sdb1"; "/mnt/casette/usb_sdb1"] None].
Proof.
  assert (H : name (get_device_info Sample.sdb1_add)
              ∈ mounted_devices Sample.sdb1_mounted)
    by (apply (bool_decide_unpack _); vm_compute; exact I).
  pose proof (handle_device_add_unguarded Sample.env_ok Sample.sdb1_add
                Sample.sdb1_mounted ∅) as (_ & _ & _ & _ & Hsame).
  refine (conj H (conj (Hsame H) _)).
  vm_compute. reflexivity.
Defined.

Lemma add_discard (x : string) (m : gset string) :
  ({[x]} ∪ m) ∖ {[x]} = m ∖ {[x]}.
Proof.
  apply set_eq. intros y.
  rewrite !elem_of_difference, elem_of_union. intuition.
Qed.

Lemma discard_absent (x : string) (m : gset string) : x ∉ m → m ∖ {[x]} = m.
Proof.
  intros Hx. apply set_eq. intros y.
  rewrite elem_of_difference, elem_of_singleton. split; [tauto|].
  intros Hy. split; [done|]. by intros ->.
Qed.

(** A successful mount records the device path. *)
Lemma handle_device_add_records env (d : Device) (s : State) (res : CompletedProcess) :
  is_usb_device d = true →
  mount_result env (trace s ++ [TimeSleep 2]) (get_device_info d) = Some res →
  returncode res = 0 →
  mounted_devices (snd (handle_device_add env d s)) =
    {[name (get_device_info d)]} ∪ mounted_devices s.
Proof.
  intros Husb Hres Hrc. unfold handle_device_add. rewrite Husb. clear Husb.
  set (info := get_device_info d) in *. clearbody info.
  unfold mount_result, mount_command in Hres. revert Hres.
  run_add; intros Hres; simplify_eq; done.
Qed.

(** Mount and unmount round trip: an "add" with a successful mount followed
    by the "remove" of the same identity leaves the record as it was
    (without the device path), and [umount] is run on the very path that
    [mount] was given. *)
Theorem add_remove_roundtrip env (d_add d_remove : Device) (s : State) (res : CompletedProcess) :
  let info := get_device_info d_add in
  let mount_point := Py.os_path_join MOUNT_BASE (label info) in
  let s1 := snd (handle_device_add env d_add s) in
  let s2 := snd (handle_device_remove env d_remove s1) in
  is_usb_device d_add = true →
  is_usb_device d_remove = true →
  get_device_info d_remove = info →
  mount_result env (trace s ++ [TimeSleep 2]) info = Some res →
  returncode res = 0 →
  mounted_devices s2 = mounted_devices s ∖ {[name info]} ∧
  (name info ∉ mounted_devices s → mounted_devices s2 = mounted_devices s) ∧
  SubprocessRun ["sudo"; "mount"; name info; mount_point] None ∈ new_calls s s1 ∧
  SubprocessRun ["sudo"; "umount"; mount_point] None ∈ new_calls s1 s2.
Proof.
  intros info mount_point s1 s2 Hadd Hremove Hsame Hres Hrc.
  pose proof (handle_device_add_records env d_add s res Hadd Hres Hrc) as Hrec.
  destruct (handle_device_add_mounted_run env d_add s res Hadd Hres Hrc)
    as (Hcalls & _ & _).
  fold info s1 in Hrec. fold info mount_point s1 in Hcalls.
  assert (Hin : name (get_device_info d_remove) ∈ mounted_devices s1).
  { rewrite Hsame, Hrec. apply elem_of_union_l. by apply elem_of_singleton. }
  assert (Hs2 : s2 = snd (handle_device_remove env d_remove s1)) by reflexivity.
  rewrite (handle_device_remove_tracked env d_remove s1 Hremove Hin) in Hs2.
  rewrite Hsame in Hs2. simpl in Hs2.
  destruct (unmount_device_run env info
              (add_log (mkLog INFO ("USB device removed: " +:+ str_of_info info)) s1))
    as (_ & Hm & _ & _ & tail & Htr & _).
  assert (Hmounted : mounted_devices s2 = mounted_devices s ∖ {[name info]}).
  { rewrite Hs2. simpl. rewrite Hm. simpl. rewrite Hrec.
    apply add_discard. }
  split_and!.
  - exact Hmounted.
  - intros Hnot. rewrite Hmounted. by apply discard_absent.
  - rewrite Hcalls. unfold mount_command. fold mount_point.
    rewrite elem_of_app, !elem_of_cons. auto.
  - erewrite (new_calls_app s1 s2); [|rewrite Hs2; simpl; exact Htr].
    unfold umount_command. fold mount_point. rewrite !elem_of_cons. auto.
Qed.

Lemma add_remove_roundtrip_witness :
  let s1 := snd (handle_device_add Sample.env_ok Sample.sdb1_add initial_state) in
  let s2 := snd (handle_device_remove Sample.env_ok Sample.sdb1_remove s1) in
  is_usb_device Sample.sdb1_add = true ∧
  is_usb_device Sample.sdb1_remove = true ∧
  get_device_info Sample.sdb1_remove = get_device_info Sample.sdb1_add ∧
  mount_result Sample.env_ok (trace initial_state ++ [TimeSleep 2])
    (get_device_info Sample.sdb1_add) = Some (mkCompleted 0 "") ∧
  (name (get_device_info Sample.sdb1_add) ∉ mounted_devices initial_state) ∧
  mounted_devices s2 = mounted_devices initial_state.
Proof.
  intros s1 s2.
  assert (H1 : is_usb_device Sample.sdb1_add = true) by reflexivity.
  assert (H2 : is_usb_device Sample.sdb1_remove = true) by reflexivity.
  assert (H3 : get_device_info Sample.sdb1_remove = get_device_info Sample.sdb1_add)
    by reflexivity.
  assert (H4 : mount_result Sample.env_ok (trace initial_state ++ [TimeSleep 2])
                 (get_device_info Sample.sdb1_add) = Some (mkCompleted 0 ""))
    by (vm_compute; reflexivity).
  assert (H5 : name (get_device_info Sample.sdb1_add) ∉ mounted_devices initial_state)
    by apply not_elem_of_empty.
  pose proof (add_remove_roundtrip Sample.env_ok Sample.sdb1_add Sample.sdb1_remove
                initial_state _ H1 H2 H3 H4 eq_refl) as (_ & Hback & _).
  exact (conj H1 (conj H2 (conj H3 (conj H4 (conj H5 (Hback H5)))))).
Defined.

(** Two recorded devices with the same label share one mount point: the
    removal of one of them runs [umount] on the mount point of the other,
    which stays in the record. *)
Theorem shared_label_unmount env (d other : Device) (s : State) :
  let r := handle_device_remove env d s in
  let info := get_device_info d in
  let info' := get_device_info other in
  is_usb_device d = true →
  label info = label info' →
  name info ≠ name info' →
  name info ∈ mounted_devices s →
  name info' ∈ mounted_devices s →
  name info' ∈ mounted_devices (snd r) ∧
  SubprocessRun ["sudo"; "umount"; Py.os_path_join MOUNT_BASE (label info')] None
    ∈ new_calls s (snd r).
Proof.
  intros r info info' Husb Hlabel Hname Hin Hin'. subst r.
  rewrite (handle_device_remove_tracked env d s Husb Hin). fold info. simpl.
  destruct (unmount_device_run env info
              (add_log (mkLog INFO ("USB device removed: " +:+ str_of_info info)) s))
    as (_ & Hm & _ & _ & tail & Htr & _).
  split.
  - rewrite Hm. simpl. apply elem_of_difference. split; [done|].
    intros Heq%elem_of_singleton. by apply Hname.
  - erewrite new_calls_app; [|simpl; exact Htr].
    unfold umount_command. rewrite Hlabel, !elem_of_cons. auto.
Qed.

Lemma shared_label_unmount_witness :
  let r := handle_device_remove Sample.env_ok Sample2.twin_remove Sample2.both_mounted in
  is_usb_device Sample2.twin_remove = true ∧
  label (get_device_info Sample2.twin_remove) = label (get_device_info Sample.sdb1_add) ∧
  name (get_device_info Sample2.twin_remove) ≠ name (get_device_info Sample.sdb1_add) ∧
  name (get_device_info Sample2.twin_remove) ∈ mounted_devices Sample2.both_mounted ∧
  name (get_device_info Sample.sdb1_add) ∈ mounted_devices Sample2.both_mounted ∧
  name (get_device_info Sample.sdb1_add) ∈ mounted_devices (snd r) ∧
  SubprocessRun ["sudo"; "umount"; "/mnt/casette/usb_sdb1"] None
    ∈ new_calls Sample2.both_mounted (snd r).
Proof.
  intros r.
  assert (H1 : is_usb_device Sample2.twin_remove = true) by reflexivity.
  assert (H2 : label (get_device_info Sample2.twin_remove)
               = label (get_device_info Sample.sdb1_add)) by (vm_compute; reflexivity).
  assert (H3 : name (get_device_info Sample2.twin_remove)
               ≠ name (get_device_info Sample.sdb1_add)) by (vm_compute; discriminate).
  assert (H4 : name (get_device_info Sample2.twin_remove)
               ∈ mounted_devices Sample2.both_mounted)
    by (apply (bool_decide_unpack _); vm_compute; exact I).
  assert (H5 : name (get_device_info Sample.sdb1_add)
               ∈ mounted_devices Sample2.both_mounted)
    by (apply (bool_decide_unpack _); vm_compute; exact I).
  pose proof (shared_label_unmount Sample.env_ok Sample2.twin_remove Sample.sdb1_add
                Sample2.both_mounted H1 H2 H3 H4 H5) as [Hstays Humount].
  exact (conj H1 (conj H2 (conj H3 (conj H4 (conj H5 (conj Hstays Humount)))))).
Defined.

(** ** Process lifetime, continued *)

Lemma try_finally_cleanup {A} env (body : M A) (s : State) :
  ∃ s1, snd (try_finally body (cleanup env) s) = snd (cleanup env s1).
Proof.
  unfold try_finally. destruct (body s) as [r s1]. exists s1.
  by rewrite cleanup_run.
Qed.

(** [start_monitoring] always ends with [cleanup], however it is left:
    when the observer cannot be started, after the interrupt, and when
    stopping the observer raises.  The last record logged is that of
    [cleanup] and the last calls are its [umount] attempts for the devices
    still recorded. *)
Theorem start_monitoring_cleans_up env (sched : list sched_item) (s : State) :
  let s' := snd (start_monitoring env sched s) in
  last (log s') = Some (mkLog INFO "Cleaning up mounted devices...") ∧
  ∃ before, trace s' = before ++ map cleanup_call (elements (mounted_devices s')).
Proof.
  intros s'.
  assert (Hend : ∃ s1, s' = snd (cleanup env s1)).
  { subst s'. unfold start_monitoring, bind, logger_info, modify.
    apply try_finally_cleanup. }
  destruct Hend as [s1 ->].
  rewrite cleanup_run. simpl. rewrite last_snoc. split; [done|]. eauto.
Qed.

Lemma start_monitoring_stop_fails env (sched : list sched_item) (s : State) (f : Py.failure) :
  first_failure env (trace s) observer_calls = None →
  (∀ h, raises env h ObserverStop = Some f) →
  ∃ s', start_monitoring env sched s = (Raise (Py.Failure f), s') ∧
        last (log s') = Some (mkLog INFO "Cleaning up mounted devices...").
Proof.
  intros Hstart Hstop. revert Hstart.
  unfold observer_calls, start_monitoring, try_finally, observer_start, observer_stop.
  unfold bind, lib_call, logger_info, logger_error, modify. simpl.
  destruct (raises env (trace s) UdevMonitorObserver) as [f0|] eqn:H0; [done|].
  simpl.
  destruct (raises env (trace s ++ [UdevMonitorObserver]) ObserverStart)
    as [f1|] eqn:H1; [done|].
  intros _. simpl. rewrite main_loop_run, Hstop, cleanup_run.
  eexists. split; [reflexivity|]. simpl. by rewrite last_snoc.
Qed.

(** When [observer.stop()] raises after the interrupt, [cleanup] still
    runs, then the exception reaches [main], which logs it as a fatal
    error and exits with status 1. *)
Theorem main_stop_failure env (sched : list sched_item) (f : Py.failure) :
  let r := main env sched initial_state in
  first_failure env [] init_calls = None →
  first_failure env init_calls observer_calls = None →
  (∀ h, raises env h ObserverStop = Some f) →
  exit_status (fst r) = 1 ∧
  ∃ before,
    log (snd r) =
      before ++ [mkLog INFO "Cleaning up mounted devices...";
                 mkLog ERROR ("Fatal error: " +:+ Py.str_of_failure f)].
Proof.
  intros r Hinit Hobs Hstop. subst r.
  destruct (main_init_ok env sched Hinit) as (s0 & Htrace & _ & ->).
  rewrite <- Htrace in Hobs.
  destruct (start_monitoring_stop_fails env sched s0 f Hobs Hstop) as (s' & Hrun & Hlog).
  unfold try_except. rewrite Hrun.
  unfold bind, logger_error, sys_exit, raise, modify. simpl. split; [done|].
  destruct (log s') as [|x l] eqn:Hl using rev_ind; [done|].
  rewrite last_snoc in Hlog. injection Hlog as ->.
  exists l. by rewrite <- app_assoc.
Qed.

Lemma main_stop_failure_witness :
  let env := Sample2.env_stop_fails in
  first_failure env [] init_calls = None ∧
  first_failure env init_calls observer_calls = None ∧
  (∀ h, raises env h ObserverStop = Some (Py.OtherError "observer not running")) ∧
  exit_status (fst (main env [Deliver Sample.sdb1_add] initial_state)) = 1.
Proof.
  intros env.
  assert (H1 : first_failure env [] init_calls = None) by reflexivity.
  assert (H2 : first_failure env init_calls observer_calls = None) by reflexivity.
  assert (H3 : ∀ h, raises env h ObserverStop
                    = Some (Py.OtherError "observer not running")) by reflexivity.
  refine (conj H1 (conj H2 (conj H3 _))).
  exact (proj1 (main_stop_failure env [Deliver Sample.sdb1_add] _ H1 H2 H3)).
Defined.

(** The constructor stops at the first call that raises and passes that
    exception on: the calls it has made are a prefix of the four, so the
    mount base directory is only created after the three udev calls have
    succeeded.  When it returns it has made all four and the record is
    empty.  It logs nothing. *)
Theorem USBMonitor_init_calls env (s : State) :
  let r := USBMonitor_init env s in
  fst r = match first_failure env (trace s) init_calls with
          | Some f => Raise (Py.Failure f)
          | None => Ok tt
          end ∧
  new_calls s (snd r) `prefix_of` init_calls ∧
  log (snd r) = log s ∧
  (fst r = Ok tt →
   new_calls s (snd r) = init_calls ∧ mounted_devices (snd r) = ∅).
Proof.
  unfold init_calls, USBMonitor_init, os_makedirs, new_calls.
  unfold bind, lib_call, modify. simpl.
  repeat (env_step; simpl);
    (split_and!; [done | | done | intros Hok; try discriminate Hok]);
    rewrite <- ?app_assoc; simpl; rewrite drop_app_length;
    try (split; reflexivity);
    by eexists.
Qed.

Lemma USBMonitor_init_calls_witness :
  fst (USBMonitor_init Sample.env_ok initial_state) = Ok tt ∧
  new_calls initial_state (snd (USBMonitor_init Sample.env_ok initial_state))
    = init_calls.
Proof.
  assert (H : fst (USBMonitor_init Sample.env_ok initial_state) = Ok tt) by reflexivity.
  refine (conj H _).
  exact (proj1 (proj2 (proj2 (proj2 (USBMonitor_init_calls Sample.env_ok initial_state)))
                 H)).
Defined.

(** ** The default label and the device path *)

Lemma dir_part_shape (l : list string) :
  let dir := foldr (λ x acc, x +:+ "/" +:+ acc) "" l in
  dir = "" ∨ Py.endswith_sep dir = true.
Proof.
  induction l as [|x l IH]; simpl; [by left|]. right.
  rewrite endswith_sep_app by done.
  destruct IH as [-> | IH]; [done|].
  change ("/" +:+ foldr (λ x acc, x +:+ "/" +:+ acc) "" l)
    with (String "/" (foldr (λ x acc, x +:+ "/" +:+ acc) "" l)).
  simpl. by destruct (foldr _ _ l).
Qed.

Lemma str_join_last (l : list string) :
  l ≠ [] →
  str_join "/" l =
  foldr (λ x acc, x +:+ "/" +:+ acc) "" (removelast l) +:+ Py.last_item l.
Proof.
  induction l as [|x l IH]; [done|]. intros _.
  destruct l as [|y l]; [done|].
  rewrite str_join_cons, IH by done.
  change (removelast (x :: y :: l)) with (x :: removelast (y :: l)).
  change (Py.last_item (x :: y :: l)) with (Py.last_item (y :: l)).
  simpl foldr. by rewrite !string_app_assoc.
Qed.

(** Without a usable [ID_FS_LABEL] the label is ["usb_"] followed by
    exactly what stands after the last "/" of the device path: the path is
    a directory part, empty or ending in "/", followed by that component,
    and the component contains no "/". *)
Theorem fallback_label_component (d : Device) :
  device_get d "ID_FS_LABEL" "" = "" →
  ∃ dir component,
    name (get_device_info d) = dir +:+ component ∧
    label (get_device_info d) = "usb_" +:+ component ∧
    (dir = "" ∨ Py.endswith_sep dir = true) ∧
    contains_char "/" component = false.
Proof.
  intros Hlabel.
  set (p := device_get d "DEVNAME" "").
  exists (foldr (λ x acc, x +:+ "/" +:+ acc) "" (removelast (Py.split "/" p))),
         (Py.last_item (Py.split "/" p)).
  split_and!.
  - change (name (get_device_info d)) with p.
    rewrite <- str_join_last by apply split_nonempty.
    symmetry. apply (split_join "/").
  - unfold get_device_info; simpl. by rewrite Hlabel.
  - apply dir_part_shape.
  - rewrite split_last_basename. apply basename_no_sep.
Qed.

Lemma fallback_label_component_witness :
  device_get Sample.sdb1_add "ID_FS_LABEL" "" = "" ∧
  ∃ dir component,
    name (get_device_info Sample.sdb1_add) = dir +:+ component ∧
    label (get_device_info Sample.sdb1_add) = "usb_" +:+ component ∧
    (dir = "" ∨ Py.endswith_sep dir = true) ∧
    contains_char "/" component = false.
Proof.
  assert (H : device_get Sample.sdb1_add "ID_FS_LABEL" "" = "")
    by (vm_compute; reflexivity).
  exact (conj H (fallback_label_component Sample.sdb1_add H)).
Defined.

(** ** Removal and shutdown *)

(** Once a recorded device has been removed, [cleanup] does not try to
    unmount it, not even when the [umount] of the removal failed. *)
Theorem removed_device_not_retried env (d : Device) (s : State) :
  let s1 := snd (handle_device_remove env d s) in
  is_usb_device d = true →
  name (get_device_info d) ∈ mounted_devices s →
  cleanup_call (name (get_device_info d)) ∉ new_calls s1 (snd (cleanup env s1)).
Proof.
  intros s1 Husb Hin. subst s1.
  rewrite (handle_device_remove_tracked env d s Husb Hin). simpl.
  set (s0 := snd (unmount_device env _ _)).
  rewrite cleanup_run. erewrite new_calls_app by reflexivity. simpl.
  intros (y & Heq & Hy)%list_elem_of_fmap.
  injection Heq as <-. apply elem_of_elements in Hy.
  by apply discard_not_elem in Hy.
Qed.

Lemma removed_device_not_retried_witness :
  let env := Sample.env_sudo_fails "umount" "umount: target is busy." in
  let s1 := snd (handle_device_remove env Sample.sdb1_remove Sample.sdb1_mounted) in
  is_usb_device Sample.sdb1_remove = true ∧
  name (get_device_info Sample.sdb1_remove) ∈ mounted_devices Sample.sdb1_mounted ∧
  (cleanup_call (name (get_device_info Sample.sdb1_remove))
     ∉ new_calls s1 (snd (cleanup env s1))).
Proof.
  intros env s1.
  assert (H1 : is_usb_device Sample.sdb1_remove = true) by reflexivity.
  assert (H2 : name (get_device_info Sample.sdb1_remove)
               ∈ mounted_devices Sample.sdb1_mounted)
    by (apply (bool_decide_unpack _); vm_compute; exact I).
  exact (conj H1 (conj H2 (removed_device_not_retried env Sample.sdb1_remove
                             Sample.sdb1_mounted H1 H2))).
Defined.

(** ** What a whole run does for devices *)

Lemma untouched_add_log (r : log_record) (s : State) :
  untouched s → untouched (add_log r s).
Proof. done. Qed.

Lemma untouched_set_observer (b : bool) (s : State) :
  untouched s → untouched (set_observer b s).
Proof. done. Qed.

Lemma untouched_add_call (c : call) (s : State) :
  handles_device c = false → untouched s → untouched (add_call c s).
Proof.
  intros Hc (Hm & Ht & Hf). split_and!; [done..|].
  simpl. rewrite List.filter_app, Hf. simpl. by rewrite Hc.
Qed.

Lemma keeps_bind {A B} (m : M A) (k : A → M B) :
  keeps_untouched m → (∀ a, keeps_untouched (k a)) → keeps_untouched (bind m k).
Proof.
  intros Hm Hk s Hs. unfold bind. specialize (Hm s Hs).
  destruct (m s) as [[a|e] s']; simpl in *; [by apply Hk | done].
Qed.

Lemma keeps_logger (lvl : level) (msg : string) :
  keeps_untouched (modify (add_log (mkLog lvl msg))).
Proof. intros s Hs. by apply untouched_add_log. Qed.

Lemma keeps_lib_call env (c : call) :
  handles_device c = false → keeps_untouched (lib_call env c).
Proof.
  intros Hc s Hs. unfold lib_call.
  destruct (raises env (trace s) c); simpl; by apply untouched_add_call.
Qed.

Lemma keeps_try_except {A} (body : M A) (handler : Py.failure → M A) :
  keeps_untouched body → (∀ f, keeps_untouched (handler f)) →
  keeps_untouched (try_except body handler).
Proof.
  intros Hb Hh s Hs. unfold try_except. specialize (Hb s Hs).
  destruct (body s) as [[a|[f| |c]] s']; simpl in *; try done. by apply Hh.
Qed.

Lemma keeps_try_finally {A} (body : M A) (final : M unit) :
  keeps_untouched body → keeps_untouched final →
  keeps_untouched (try_finally body final).
Proof.
  intros Hb Hf s Hs. unfold try_finally. specialize (Hb s Hs).
  destruct (body s) as [r s']. simpl in Hb. specialize (Hf s' Hb).
  by destruct (final s') as [[u|e] s''].
Qed.

Lemma keeps_for_each {A} (l : list A) (body : A → M unit) :
  (∀ x, keeps_untouched (body x)) → keeps_untouched (for_each l body).
Proof.
  intros Hb. induction l as [|x l IH]; simpl; [by intros s Hs|].
  apply keeps_bind; [apply Hb | by intros _].
Qed.

(** Nothing that happens while the main thread sleeps touches a device:
    the handler is never entered and there is no thread to run. *)
Lemma keeps_step env (i : sched_item) : keeps_untouched (step env i).
Proof.
  intros s Hs. destruct i as [d| |]; simpl.
  - rewrite deliver_run. simpl.
    destruct (observer_running s); [by apply untouched_set_observer | done].
  - unfold run_thread. destruct Hs as (Hm & Ht & Hf). by rewrite Ht.
  - by apply untouched_add_call.
Qed.

Lemma keeps_cleanup env : keeps_untouched (cleanup env).
Proof.
  intros s Hs. rewrite cleanup_run. simpl.
  destruct Hs as (Hm & Ht & Hf). split_and!; [done..|].
  simpl. rewrite Hm, elements_empty. simpl. by rewrite app_nil_r.
Qed.

Lemma keeps_start_monitoring env (sched : list sched_item) :
  keeps_untouched (start_monitoring env sched).
Proof.
  unfold start_monitoring.
  apply keeps_bind; [apply keeps_logger|]. intros _.
  apply keeps_try_finally; [|apply keeps_cleanup].
  intros s Hs.
  assert (Hbody : keeps_untouched
            (lib_call env UdevMonitorObserver;;
             observer_start env;;
             logger_info "USB monitor started successfully. Press Ctrl+C to stop.";;
             main_loop env sched)).
  { apply keeps_bind; [by apply keeps_lib_call|]. intros _.
    apply keeps_bind.
    { unfold observer_start. apply keeps_bind; [by apply keeps_lib_call|].
      intros _ s0 Hs0. by apply untouched_set_observer. }
    intros _. apply keeps_bind; [apply keeps_logger|]. intros _.
    unfold main_loop. apply keeps_bind; [|by intros _ s0 Hs0].
    apply keeps_for_each, keeps_step. }
  specialize (Hbody s Hs).
  destruct ((lib_call env UdevMonitorObserver;; _) s) as [[a|[f| |c]] s'];
    simpl in *; try done.
  revert s' Hbody.
  change (keeps_untouched
            (logger_info "Received interrupt signal, stopping monitor...";;
             observer_stop env)).
  apply keeps_bind; [apply keeps_logger|]. intros _.
  unfold observer_stop. apply keeps_bind; [by apply keeps_lib_call|].
  intros _ s0 Hs0. by apply untouched_set_observer.
Qed.

Lemma keeps_init env : keeps_untouched (USBMonitor_init env).
Proof.
  unfold USBMonitor_init, os_makedirs.
  repeat (apply keeps_bind; [by apply keeps_lib_call|]; intros _).
  apply keeps_bind; [|intros _; by apply keeps_lib_call].
  intros s (Hm & Ht & Hf). done.
Qed.

(** In a whole run of [main] nothing is ever done for a device, whatever
    events the observer receives and whatever the library calls answer:
    no program is run (neither [mount] nor [umount], [pkill], [which] or
    the viewer), no marker is looked for, no thread is started, and the
    record stays empty to the end, so [cleanup] has nothing to unmount. *)
Theorem main_handles_no_device env (sched : list sched_item) :
  let s' := snd (main env sched initial_state) in
  mounted_devices s' = ∅ ∧
  threads s' = [] ∧
  List.filter handles_device (trace s') = [].
Proof.
  intros s'. subst s'.
  assert (Hmain : keeps_untouched (main env sched)).
  { unfold main. apply keeps_bind; [apply keeps_logger|]. intros _.
    apply keeps_try_except.
    - apply keeps_bind; [apply keeps_init|]. intros _. apply keeps_start_monitoring.
    - intros f. apply keeps_bind; [apply keeps_logger|]. by intros _ s0 Hs0. }
  by apply Hmain.
Qed.
